(** * ai-pdf-summarizer: the polling client and the document pipeline

    Three parts.

    - [Frontend] embeds [frontend/app/page.tsx]: the [Summary] and
      [SummariesResponse] interfaces, [fetchSummaries], the polling effect,
      [handleFileUpload] and [getStatusColor].  React state is a record that
      the handlers thread explicitly; the network is an input (the reply a
      request receives) and an output (the requests a handler issues).
    - [Rendering] embeds the JSX that [Home] returns, as the parts of the
      view that depend on state, and runs of the page.  [Runtime] follows
      the same code on untyped values, and [Async] takes an upload apart
      at its awaits.
    - [Pipeline] holds the document store, the work queues and the two
      workers.  The backend that implements them is not embedded here:
      they are modelled from the specification (each definition says so).

    Strings are Rocq strings read as UTF-8 bytes. *)

From Stdlib Require Import ZArith NArith Ascii String List Bool Lia.
From stdpp Require Import gmap strings list fin_maps.

Local Open Scope string_scope.

(* ===================================================================== *)
(** ** JavaScript string operations used by the page *)
(* ===================================================================== *)

Module JS.

(** [String.prototype.toLowerCase] on the ASCII range: [A-Z] go to [a-z] and
    every other byte is kept.  Bytes of a multi-byte UTF-8 sequence are all
    >= 128, so a character outside ASCII never turns into one of the
    letters the page compares against ("uploaded", "text_ready",
    "summary_ready", "error", ".pdf" contain neither "k" nor "i", the only
    ASCII letters that a non-ASCII character lowers to). *)
Definition lower_ascii (c : ascii) : ascii :=
  let n := N_of_ascii c in
  if (65 <=? n)%N && (n <=? 90)%N then ascii_of_N (n + 32) else c.

Fixpoint toLowerCase (s : string) : string :=
  match s with
  | EmptyString => EmptyString
  | String c r => String (lower_ascii c) (toLowerCase r)
  end.

(** [s.endsWith(suffix)]: the last [length suffix] units of [s] are
    [suffix]; false when [s] is shorter. *)
Definition endsWith (s suffix : string) : bool :=
  let n := String.length s in
  let m := String.length suffix in
  if (m <=? n)%nat then String.eqb (substring (n - m) m s) suffix else false.

(** [x || d] on an optional string: [undefined], [null] and the empty
    string are falsy. *)
Definition or_else (x : option string) (d : string) : string :=
  match x with
  | Some EmptyString | None => d
  | Some s => s
  end.

(** [encodeURIComponent]: the unreserved bytes [A-Z a-z 0-9 - _ . ! ~ * ' ( )]
    are kept, every other byte becomes [%XX] in upper-case hexadecimal. *)
Definition hex_digit (n : N) : ascii :=
  if (n <? 10)%N then ascii_of_N (48 + n) else ascii_of_N (55 + n).

Definition uri_unreserved (c : ascii) : bool :=
  let n := N_of_ascii c in
  ((65 <=? n)%N && (n <=? 90)%N) || ((97 <=? n)%N && (n <=? 122)%N)
  || ((48 <=? n)%N && (n <=? 57)%N)
  || existsb (Ascii.eqb c) ["-"; "_"; "."; "!"; "~"; "*"; "'"; "("; ")"]%char.

Fixpoint encodeURIComponent (s : string) : string :=
  match s with
  | EmptyString => EmptyString
  | String c r =>
      if uri_unreserved c then String c (encodeURIComponent r)
      else
        let n := N_of_ascii c in
        String "%" (String (hex_digit (n / 16)) (String (hex_digit (n mod 16))
          (encodeURIComponent r)))
  end.

(** What a [catch (err)] clause may receive: an [Error] object with its
    message, or any other thrown value. *)
Inductive Thrown :=
| ErrorObject (message : string)
| OtherValue.

(** [err instanceof Error ? err.message : fallback] *)
Definition message_or (err : Thrown) (fallback : string) : string :=
  match err with
  | ErrorObject m => m
  | OtherValue => fallback
  end.

(** Parsed JSON, as [response.json()] resolves to.  An object keeps its
    members in order; [prop] reads a property ([None] is [undefined]). *)
#[local] Unset Elimination Schemes.
Inductive JSON :=
| JNull
| JBool (b : bool)
| JNumber (z : Z)
| JString (s : string)
| JArray (items : list JSON)
| JObject (members : list (string * JSON)).
#[local] Set Elimination Schemes.

(** A later member with the same key overrides an earlier one. *)
Fixpoint lookup_member (k : string) (members : list (string * JSON)) : option JSON :=
  match members with
  | [] => None
  | (k', v) :: rest =>
      match lookup_member k rest with
      | Some w => Some w
      | None => if String.eqb k k' then Some v else None
      end
  end.

Definition prop (k : string) (v : JSON) : option JSON :=
  match v with
  | JObject members => lookup_member k members
  | _ => None
  end.

Definition keys (v : JSON) : list string :=
  match v with
  | JObject members => map fst members
  | _ => []
  end.

End JS.

(* ===================================================================== *)
(** ** frontend/app/page.tsx *)
(* ===================================================================== *)

Module Frontend.
Import JS.

(** [interface Summary] *)
Module Summary.
Record t := mk {
  file_id : string;
  filename : string;
  status : string;
  text : string;
  summary : string;
  updated_at : string
}.
End Summary.

(** [interface SummariesResponse].  The field [summaries] is optional here
    because [fetchSummaries] guards it with [|| []]: [None] stands for a
    missing or [null] field. *)
Module SummariesResponse.
Record t := mk {
  summaries : option (list Summary.t);
  count : Z
}.
End SummariesResponse.

(** The browser's [File]: name, MIME type and size in bytes. *)
Module File.
Record t := mk {
  name : string;
  type : string;
  size : Z
}.
End File.

(** The [useState] cells of [Home]. *)
Record Home := mkHome {
  summaries : list Summary.t;
  loading : bool;
  error : option string;
  uploading : bool;
  uploadError : option string;
  uploadSuccess : bool;
  isDragging : bool;
  extractionMode : string
}.

Definition initialHome : Home :=
  {| summaries := []; loading := true; error := None; uploading := false;
     uploadError := None; uploadSuccess := false; isDragging := false;
     extractionMode := "plain_text" |}.

Definition setSummaries (v : list Summary.t) (h : Home) : Home :=
  mkHome v (loading h) (error h) (uploading h) (uploadError h)
         (uploadSuccess h) (isDragging h) (extractionMode h).
Definition setLoading (v : bool) (h : Home) : Home :=
  mkHome (summaries h) v (error h) (uploading h) (uploadError h)
         (uploadSuccess h) (isDragging h) (extractionMode h).
Definition setError (v : option string) (h : Home) : Home :=
  mkHome (summaries h) (loading h) v (uploading h) (uploadError h)
         (uploadSuccess h) (isDragging h) (extractionMode h).
Definition setUploading (v : bool) (h : Home) : Home :=
  mkHome (summaries h) (loading h) (error h) v (uploadError h)
         (uploadSuccess h) (isDragging h) (extractionMode h).
Definition setUploadError (v : option string) (h : Home) : Home :=
  mkHome (summaries h) (loading h) (error h) (uploading h) v
         (uploadSuccess h) (isDragging h) (extractionMode h).
Definition setUploadSuccess (v : bool) (h : Home) : Home :=
  mkHome (summaries h) (loading h) (error h) (uploading h) (uploadError h)
         v (isDragging h) (extractionMode h).
Definition setIsDragging (v : bool) (h : Home) : Home :=
  mkHome (summaries h) (loading h) (error h) (uploading h) (uploadError h)
         (uploadSuccess h) v (extractionMode h).
Definition setExtractionMode (v : string) (h : Home) : Home :=
  mkHome (summaries h) (loading h) (error h) (uploading h) (uploadError h)
         (uploadSuccess h) (isDragging h) v.

(** What a handler does to the outside: a request, or a timer it arms. *)
Inductive Effect :=
| GET (url : string)
| POST (url : string) (file : File.t)
| SetTimeout (ms : Z).

Definition is_POST (e : Effect) : bool :=
  match e with POST _ _ => true | _ => false end.

(** The reply to [GET /summaries], in the order the code looks at it:
    [fetch] rejects; the response is not [ok]; [response.json()] rejects;
    the body parsed. *)
Inductive SummariesReply :=
| SummariesRejected (err : Thrown)
| SummariesNotOk
| SummariesBadJson (err : Thrown)
| SummariesOk (data : SummariesResponse.t).

(** The reply to [POST /summarize].  For a response that is not [ok] the
    code reads [errorData.detail], a string when present; the outer [None]
    is a body that did not parse (the [.catch] then supplies
    [{ detail: 'Upload failed' }]). *)
Inductive UploadReply :=
| UploadRejected (err : Thrown)
| UploadNotOk (errorData : option (option string))
| UploadBadJson (err : Thrown)
| UploadOk.

Section Page.

(** [process.env.NEXT_PUBLIC_API_URL] *)
Variable NEXT_PUBLIC_API_URL : option string.

Definition apiUrl : string := or_else NEXT_PUBLIC_API_URL "http://localhost:8000".

(** [fetchSummaries(silent)] *)
Definition fetchSummaries (silent : bool) (reply : SummariesReply) (h : Home)
  : Home * list Effect :=
  let caught (err : Thrown) :=
    if silent then h else setError (Some (message_or err "An error occurred")) h in
  let h1 :=
    match reply with
    | SummariesRejected err => caught err
    | SummariesNotOk => caught (ErrorObject "Failed to fetch summaries")
    | SummariesBadJson err => caught err
    | SummariesOk data =>
        setSummaries (default [] (SummariesResponse.summaries data)) h
    end in
  (if silent then h1 else setLoading false h1, [GET (apiUrl ++ "/summaries")]).

(** The condition of the polling effect. *)
Definition inProgress (s : Summary.t) : bool :=
  String.eqb (toLowerCase (Summary.status s)) "uploaded"
  || String.eqb (toLowerCase (Summary.status s)) "text_ready".

Definition hasInProgressSummaries (l : list Summary.t) : bool :=
  existsb inProgress l.

(** The polling effect: no interval when nothing is in progress, otherwise
    an interval of 3000 ms whose callback is [fetchSummaries(true)]. *)
Definition pollEffect (l : list Summary.t) : option Z :=
  if hasInProgressSummaries l then Some 3000%Z else None.

(** The two validations of [handleFileUpload]. *)
Definition isInvalidFileType (file : File.t) : bool :=
  negb (String.eqb (File.type file) "application/pdf")
  && negb (endsWith (toLowerCase (File.name file)) ".pdf").

Definition maxSize : Z := 5 * 1024 * 1024.

Definition isTooLarge (file : File.t) : bool := (File.size file >? maxSize)%Z.

(** [handleFileUpload(file)].  [upload] is the reply to the POST and
    [listing] the reply to the refresh that follows a successful upload. *)
Definition handleFileUpload (file : File.t) (upload : UploadReply)
    (listing : SummariesReply) (h : Home) : Home * list Effect :=
  if isInvalidFileType file then
    (setUploadError (Some "Only PDF files are allowed") h, [])
  else if isTooLarge file then
    (setUploadError (Some "File size must be less than 5MB") h, [])
  else
    let h0 := setUploadSuccess false (setUploadError None (setUploading true h)) in
    let post :=
      POST (apiUrl ++ "/summarize?mode=" ++ encodeURIComponent (extractionMode h)) file in
    let caught (err : Thrown) :=
      (setUploadError (Some (message_or err "An error occurred during upload")) h0,
       [post]) in
    let '(h1, effects) :=
      match upload with
      | UploadRejected err => caught err
      | UploadNotOk errorData =>
          let detail :=
            match errorData with
            | Some d => d
            | None => Some "Upload failed"
            end in
          caught (ErrorObject (or_else detail "Failed to upload PDF"))
      | UploadBadJson err => caught err
      | UploadOk =>
          let '(h2, fetched) := fetchSummaries false listing (setUploadSuccess true h0) in
          (h2, post :: fetched ++ [SetTimeout 3000])
      end in
    (setUploading false h1, effects).

(** [getStatusColor(status)] *)
Definition getStatusColor (status : string) : string :=
  let s := toLowerCase status in
  if String.eqb s "uploaded" then "bg-blue-100 text-blue-800"
  else if String.eqb s "text_ready" then "bg-yellow-100 text-yellow-800"
  else if String.eqb s "summary_ready" then "bg-green-100 text-green-800"
  else if String.eqb s "error" then "bg-red-100 text-red-800"
  else "bg-gray-100 text-gray-800".

End Page.

(** *** The wire shape behind the two interfaces

    [const data: SummariesResponse = await response.json()] asserts a type
    for the parsed body without checking it.  The functions below say which
    parsed bodies have that type, and which typed value they are: every
    property is read under the name the interface declares. *)

Definition Summary_fields : list string :=
  ["file_id"; "filename"; "status"; "text"; "summary"; "updated_at"].

Definition prop_string (k : string) (v : JSON) : option string :=
  match prop k v with
  | Some (JString s) => Some s
  | _ => None
  end.

Definition prop_number (k : string) (v : JSON) : option Z :=
  match prop k v with
  | Some (JNumber z) => Some z
  | _ => None
  end.

Definition Summary_of_json (v : JSON) : option Summary.t :=
  file_id ← prop_string "file_id" v;
  filename ← prop_string "filename" v;
  status ← prop_string "status" v;
  text ← prop_string "text" v;
  summary ← prop_string "summary" v;
  updated_at ← prop_string "updated_at" v;
  Some (Summary.mk file_id filename status text summary updated_at).

Definition Summary_to_json (s : Summary.t) : JSON :=
  JObject [("file_id", JString (Summary.file_id s));
           ("filename", JString (Summary.filename s));
           ("status", JString (Summary.status s));
           ("text", JString (Summary.text s));
           ("summary", JString (Summary.summary s));
           ("updated_at", JString (Summary.updated_at s))].

Definition SummariesResponse_of_json (v : JSON) : option SummariesResponse.t :=
  count ← prop_number "count" v;
  match prop "summaries" v with
  | None | Some JNull => Some (SummariesResponse.mk None count)
  | Some (JArray items) =>
      l ← mapM Summary_of_json items;
      Some (SummariesResponse.mk (Some l) count)
  | Some _ => None
  end.

Definition SummariesResponse_to_json (l : list Summary.t) (count : Z) : JSON :=
  JObject [("summaries", JArray (map Summary_to_json l)); ("count", JNumber count)].

(** The list response as the specification words it:
    [{documents: [...], count}], each document exposing
    [{id, filename, status, extracted_text, summary, updated_at}]. *)
Module SpecShape.
Record Document := mkDocument {
  id : string;
  filename : string;
  status : string;
  extracted_text : string;
  summary : string;
  updated_at : string
}.

Definition Document_fields : list string :=
  ["id"; "filename"; "status"; "extracted_text"; "summary"; "updated_at"].

Definition Document_to_json (d : Document) : JSON :=
  JObject [("id", JString (id d));
           ("filename", JString (filename d));
           ("status", JString (status d));
           ("extracted_text", JString (extracted_text d));
           ("summary", JString (summary d));
           ("updated_at", JString (updated_at d))].

Definition list_response (docs : list Document) : JSON :=
  JObject [("documents", JArray (map Document_to_json docs));
           ("count", JNumber (Z.of_nat (List.length docs)))].
End SpecShape.

(** *** The page as a transition system

    A [Page] is the state cells together with the interval the polling
    effect holds.  The effect depends on [summaries]: after every handler
    React runs its cleanup ([clearInterval]) and then the effect again. *)

Record Page := mkPage {
  home : Home;
  pollInterval : option Z
}.

Inductive Event :=
| Mount (reply : SummariesReply)
| PollTick (reply : SummariesReply)
| OnFileSelect (file : option File.t) (upload : UploadReply) (listing : SummariesReply)
| OnDrop (file : option File.t) (upload : UploadReply) (listing : SummariesReply)
| OnDragOver
| OnDragLeave
| OnModeChange (value : string)
| SuccessTimeout.

Section Machine.

Variable NEXT_PUBLIC_API_URL : option string.

Definition render (h : Home) : Page :=
  {| home := h; pollInterval := pollEffect (summaries h) |}.

Definition initialPage : Page := render initialHome.

(** [handleFileSelect] and [handleDrop]: upload the first file, if any. *)
Definition handleFileSelect (file : option File.t) (upload : UploadReply)
    (listing : SummariesReply) (h : Home) : Home * list Effect :=
  match file with
  | Some f => handleFileUpload NEXT_PUBLIC_API_URL f upload listing h
  | None => (h, [])
  end.

Definition handleDrop (file : option File.t) (upload : UploadReply)
    (listing : SummariesReply) (h : Home) : Home * list Effect :=
  handleFileSelect file upload listing (setIsDragging false h).

(** One event.  The interval callback can only fire while an interval is
    set; every other event is always possible. *)
Definition step (p : Page) (e : Event) : option (Page * list Effect) :=
  let after (r : Home * list Effect) := Some (render (fst r), snd r) in
  match e with
  | Mount reply => after (fetchSummaries NEXT_PUBLIC_API_URL false reply (home p))
  | PollTick reply =>
      match pollInterval p with
      | Some _ => after (fetchSummaries NEXT_PUBLIC_API_URL true reply (home p))
      | None => None
      end
  | OnFileSelect file upload listing =>
      after (handleFileSelect file upload listing (home p))
  | OnDrop file upload listing => after (handleDrop file upload listing (home p))
  | OnDragOver => after (setIsDragging true (home p), [])
  | OnDragLeave => after (setIsDragging false (home p), [])
  | OnModeChange value => after (setExtractionMode value (home p), [])
  | SuccessTimeout => after (setUploadSuccess false (home p), [])
  end.

Inductive reachable : Page -> Prop :=
| reachable_initial : reachable initialPage
| reachable_step p e p' effects :
    reachable p -> step p e = Some (p', effects) -> reachable p'.

End Machine.

End Frontend.

(* ===================================================================== *)
(** ** What [Home] renders, and runs of the page *)
(* ===================================================================== *)

Module Rendering.
Import JS Frontend.

(** A string in a JSX condition ([s && ...], [s || d]): the empty string is
    falsy; [null] is falsy. *)
Definition truthy (s : string) : bool := negb (String.eqb s "").

Definition truthyOpt (o : option string) : bool :=
  match o with
  | Some s => truthy s
  | None => false
  end.

(** [{o && <panel>{o}</panel>}]: the panel with its text, or nothing. *)
Definition shown (o : option string) : option string :=
  if truthyOpt o then o else None.

(** One card of the grid.  [lastUpdated] holds the [updated_at] string the
    line formats with [toLocaleString]. *)
Record Card := mkCard {
  key : string;
  title : string;
  fileId : string;
  badgeClass : string;
  badgeText : string;
  summarySection : option string;
  lastUpdated : option string
}.

Definition renderCard (s : Summary.t) : Card :=
  {| key := Summary.file_id s;
     title := or_else (Some (Summary.filename s)) "Untitled PDF";
     fileId := Summary.file_id s;
     badgeClass := "inline-flex items-center px-3 py-1 rounded-full text-sm font-medium "
                   ++ getStatusColor (Summary.status s);
     badgeText := Summary.status s;
     summarySection := shown (Some (Summary.summary s));
     lastUpdated := shown (Some (Summary.updated_at s)) |}.

(** The parts of the returned JSX that depend on state. *)
Record View := mkView {
  plainTextChecked : bool;
  markdownChecked : bool;
  dropZoneClass : string;
  inputDisabled : bool;
  dropPrompt : string;
  buttonDisabled : bool;
  buttonLabel : string;
  uploadErrorPanel : option string;
  uploadSuccessPanel : bool;
  spinner : bool;
  errorPanel : option string;
  emptyState : bool;
  cards : option (list Card);
  footer : option (nat * string)
}.

Definition view (h : Home) : View :=
  let idle := negb (loading h) && negb (truthyOpt (error h)) in
  let n := List.length (summaries h) in
  {| plainTextChecked := String.eqb (extractionMode h) "plain_text";
     markdownChecked := String.eqb (extractionMode h) "markdown";
     dropZoneClass := if isDragging h then "border-blue-500 bg-blue-50"
                      else "border-gray-300 bg-white hover:border-gray-400";
     inputDisabled := uploading h;
     dropPrompt := if isDragging h then "Drop your PDF here"
                   else "Drag and drop your PDF file here";
     buttonDisabled := uploading h;
     buttonLabel := if uploading h then "Uploading..." else "Browse Files";
     uploadErrorPanel := shown (uploadError h);
     uploadSuccessPanel := uploadSuccess h;
     spinner := loading h;
     errorPanel := shown (error h);
     emptyState := idle && Nat.eqb n 0;
     cards := if idle && Nat.ltb 0 n then Some (map renderCard (summaries h)) else None;
     footer := if idle && Nat.ltb 0 n
               then Some (n, if Nat.eqb n 1 then "summary" else "summaries")
               else None |}.

(** One event of the page, and runs of any number of events. *)
Definition successor (env : option string) (p p' : Page) : Prop :=
  exists e effects, step env p e = Some (p', effects).

Definition run (env : option string) : Page -> Page -> Prop :=
  rtc (successor env).

(** The reply to the list request an event carries, if the event reaches
    [fetchSummaries]. *)
Definition listReply (e : Event) : option SummariesReply :=
  match e with
  | Mount reply | PollTick reply => Some reply
  | OnFileSelect (Some f) UploadOk listing | OnDrop (Some f) UploadOk listing =>
      if isInvalidFileType f || isTooLarge f then None else Some listing
  | _ => None
  end.

(** Undoing [encodeURIComponent]: [%XX] back to the byte, any other byte
    kept. *)
Definition unhex (c : ascii) : N :=
  let n := N_of_ascii c in
  if (n <=? 57)%N then (n - 48)%N else (n - 55)%N.

Fixpoint unescape (s : string) : string :=
  match s with
  | EmptyString => EmptyString
  | String c r =>
      if Ascii.eqb c "%" then
        match r with
        | String a (String b r') =>
            String (ascii_of_N (16 * unhex a + unhex b)) (unescape r')
        | _ => String c (unescape r)
        end
      else String c (unescape r)
  end.

(** [handleFileUpload] past its two validations: the file passed both, the
    state the upload starts from, and the request it sends. *)
Definition valid (f : File.t) : Prop :=
  isInvalidFileType f = false /\ isTooLarge f = false.

Definition started (h : Home) : Home :=
  setUploadSuccess false (setUploadError None (setUploading true h)).

Definition postOf (env : option string) (f : File.t) (h : Home) : Effect :=
  POST (apiUrl env ++ "/summarize?mode=" ++ encodeURIComponent (extractionMode h)) f.

(** What an event does to the state cells and which effects it issues,
    before the effects of React run again. *)
Definition handle (env : option string) (e : Event) (h : Home) : Home * list Effect :=
  match e with
  | Mount reply => fetchSummaries env false reply h
  | PollTick reply => fetchSummaries env true reply h
  | OnFileSelect file upload listing => handleFileSelect env file upload listing h
  | OnDrop file upload listing => handleDrop env file upload listing h
  | OnDragOver => (setIsDragging true h, [])
  | OnDragLeave => (setIsDragging false h, [])
  | OnModeChange value => (setExtractionMode value h, [])
  | SuccessTimeout => (setUploadSuccess false h, [])
  end.

End Rendering.

(* ===================================================================== *)
(** ** The page at run time: values as they arrive *)
(* ===================================================================== *)

(** TypeScript's annotations are erased.  [Runtime] follows what the code
    does with whatever [response.json()] resolved to, where [Frontend]
    follows the declared types. *)
Module Runtime.
Import JS Frontend.

(** JavaScript truthiness of a parsed value. *)
Definition truthy (v : JSON) : bool :=
  match v with
  | JNull => false
  | JBool b => b
  | JNumber z => negb (Z.eqb z 0)
  | JString s => negb (String.eqb s "")
  | JArray _ | JObject _ => true
  end.

(** [Array.isArray] *)
Definition isArray (v : JSON) : bool :=
  match v with
  | JArray _ => true
  | _ => false
  end.

(** The [useState] cells, with [summaries] holding whatever was stored. *)
Record Cells := mkCells {
  summaries : JSON;
  loading : bool;
  error : option string;
  uploading : bool;
  uploadError : option string;
  uploadSuccess : bool;
  isDragging : bool;
  extractionMode : string
}.

Definition setSummaries (v : JSON) (c : Cells) : Cells :=
  mkCells v (loading c) (error c) (uploading c) (uploadError c)
          (uploadSuccess c) (isDragging c) (extractionMode c).
Definition setLoading (v : bool) (c : Cells) : Cells :=
  mkCells (summaries c) v (error c) (uploading c) (uploadError c)
          (uploadSuccess c) (isDragging c) (extractionMode c).
Definition setError (v : option string) (c : Cells) : Cells :=
  mkCells (summaries c) (loading c) v (uploading c) (uploadError c)
          (uploadSuccess c) (isDragging c) (extractionMode c).

(** The reply to [GET /summaries] with the parsed body untyped. *)
Inductive Reply :=
| Rejected (err : Thrown)
| NotOk
| BadJson (err : Thrown)
| Parsed (data : JSON).

(** What [response.json()] gave for a response that is not [ok]. *)
Inductive ErrorBody :=
| BodyRejected
| BodyParsed (errorData : JSON).

Section Engine.

Variable NEXT_PUBLIC_API_URL : option string.

(** The message of the [TypeError] the engine throws when a property of
    [null] is read, and [String(v)] for a value that is not a string, as
    [new Error(v)] applies it to its argument. *)
Variable nullPropertyError : string.
Variable stringify : JSON -> string.

(** [data.summaries || []]; reading a property of [null] throws. *)
Definition readSummaries (data : JSON) : Thrown + JSON :=
  match data with
  | JNull => inl (ErrorObject nullPropertyError)
  | _ =>
      inr (match prop "summaries" data with
           | Some v => if truthy v then v else JArray []
           | None => JArray []
           end)
  end.

(** [fetchSummaries(silent)] *)
Definition fetchSummaries (silent : bool) (reply : Reply) (c : Cells)
  : Cells * list Effect :=
  let caught (err : Thrown) :=
    if silent then c else setError (Some (message_or err "An error occurred")) c in
  let c1 :=
    match reply with
    | Rejected err => caught err
    | NotOk => caught (ErrorObject "Failed to fetch summaries")
    | BadJson err => caught err
    | Parsed data =>
        match readSummaries data with
        | inl err => caught err
        | inr v => setSummaries v c
        end
    end in
  (if silent then c1 else setLoading false c1,
   [GET (apiUrl NEXT_PUBLIC_API_URL ++ "/summaries")]).

(** Lines 102-105 of [handleFileUpload]: what is thrown for a response
    that is not [ok]. *)
Definition uploadFailure (body : ErrorBody) : Thrown :=
  let errorData :=
    match body with
    | BodyRejected => JObject [("detail", JString "Upload failed")]
    | BodyParsed v => v
    end in
  match errorData with
  | JNull => ErrorObject nullPropertyError
  | _ =>
      let argument :=
        match prop "detail" errorData with
        | Some d => if truthy d then d else JString "Failed to upload PDF"
        | None => JString "Failed to upload PDF"
        end in
      ErrorObject (match argument with
                   | JString s => s
                   | other => stringify other
                   end)
  end.

(** The [uploadError] the [catch] clause stores for it. *)
Definition uploadFailureText (body : ErrorBody) : string :=
  message_or (uploadFailure body) "An error occurred during upload".

End Engine.

(** The typed state and replies, as run-time values. *)
Definition cellsOf (h : Home) : Cells :=
  mkCells (JArray (map Summary_to_json (Frontend.summaries h)))
          (Frontend.loading h) (Frontend.error h) (Frontend.uploading h)
          (Frontend.uploadError h) (Frontend.uploadSuccess h)
          (Frontend.isDragging h) (Frontend.extractionMode h).

Definition bodyOf (data : SummariesResponse.t) : JSON :=
  JObject ((match SummariesResponse.summaries data with
            | Some l => [("summaries", JArray (map Summary_to_json l))]
            | None => []
            end ++ [("count", JNumber (SummariesResponse.count data))])%list).

Definition replyOf (reply : SummariesReply) : Reply :=
  match reply with
  | SummariesRejected err => Rejected err
  | SummariesNotOk => NotOk
  | SummariesBadJson err => BadJson err
  | SummariesOk data => Parsed (bodyOf data)
  end.

Definition errorBodyOf (errorData : option (option string)) : ErrorBody :=
  match errorData with
  | None => BodyRejected
  | Some None => BodyParsed (JObject [])
  | Some (Some detail) => BodyParsed (JObject [("detail", JString detail)])
  end.

End Runtime.

(* ===================================================================== *)
(** ** An upload between its awaits *)
(* ===================================================================== *)

(** [handleFileUpload] gives control back at every [await], and the drop
    zone stays active meanwhile.  It writes state in three places: before
    the POST is sent, when the POST has settled (the response and its body
    are known), and when the list request it then makes has settled.
    Nothing is read or written at the awaits in between. *)
Module Async.
Import JS Frontend Rendering.

Section Upload.

Variable NEXT_PUBLIC_API_URL : option string.

(** Up to [await fetch(...)]; the flag says whether a POST is now in
    flight. *)
Definition uploadBegin (file : File.t) (h : Home) : Home * list Effect * bool :=
  if isInvalidFileType file then
    (setUploadError (Some "Only PDF files are allowed") h, [], false)
  else if isTooLarge file then
    (setUploadError (Some "File size must be less than 5MB") h, [], false)
  else (started h, [postOf NEXT_PUBLIC_API_URL file h], true).

(** From the settled POST to [await fetchSummaries()], or to the end of
    the handler through [catch] and [finally]; the flag says whether the
    list request is now in flight. *)
Definition uploadSettled (upload : UploadReply) (h : Home)
  : Home * list Effect * bool :=
  let caught (err : Thrown) :=
    (setUploading false
       (setUploadError (Some (message_or err "An error occurred during upload")) h),
     [], false) in
  match upload with
  | UploadRejected err => caught err
  | UploadNotOk errorData =>
      let detail :=
        match errorData with
        | Some d => d
        | None => Some "Upload failed"
        end in
      caught (ErrorObject (or_else detail "Failed to upload PDF"))
  | UploadBadJson err => caught err
  | UploadOk =>
      (setUploadSuccess true h, [GET (apiUrl NEXT_PUBLIC_API_URL ++ "/summaries")], true)
  end.

(** From the settled list request to the end: the writes of
    [fetchSummaries], the timer, and [finally]. *)
Definition uploadListed (listing : SummariesReply) (h : Home) : Home * list Effect :=
  (setUploading false (fst (fetchSummaries NEXT_PUBLIC_API_URL false listing h)),
   [SetTimeout 3000]).

(** Where an upload in flight stands. *)
Inductive Stage := AwaitingPost | AwaitingList.

Record Page := mkPage {
  cells : Home;
  inflight : list Stage
}.

Definition initialPage : Page := mkPage initialHome [].

(** The events of the page with uploads taken apart: a file is handed
    over (by selection, or by a drop, which first clears the highlight),
    the POST of the upload at position [i] settles, its list request
    settles, or any other event happens. *)
Inductive Event :=
| Begin (file : File.t) (dropped : bool)
| Settle (i : nat) (upload : UploadReply)
| Listed (i : nat) (listing : SummariesReply)
| Other (e : Frontend.Event).

Definition step (p : Page) (e : Event) : option (Page * list Effect) :=
  match e with
  | Begin file dropped =>
      let h := if dropped then setIsDragging false (cells p) else cells p in
      let '(h1, effects, posted) := uploadBegin file h in
      Some (mkPage h1 (if posted then (inflight p ++ [AwaitingPost])%list else inflight p),
            effects)
  | Settle i upload =>
      match inflight p !! i with
      | Some AwaitingPost =>
          let '(h1, effects, listing) := uploadSettled upload (cells p) in
          Some (mkPage h1 (if listing then <[i := AwaitingList]> (inflight p)
                           else delete i (inflight p)),
                effects)
      | _ => None
      end
  | Listed i listing =>
      match inflight p !! i with
      | Some AwaitingList =>
          let '(h1, effects) := uploadListed listing (cells p) in
          Some (mkPage h1 (delete i (inflight p)), effects)
      | _ => None
      end
  | Other (OnFileSelect (Some _) _ _) | Other (OnDrop (Some _) _ _) => None
  | Other (PollTick reply) =>
      if hasInProgressSummaries (Frontend.summaries (cells p))
      then Some (mkPage (fst (handle NEXT_PUBLIC_API_URL (PollTick reply) (cells p)))
                        (inflight p),
                 snd (handle NEXT_PUBLIC_API_URL (PollTick reply) (cells p)))
      else None
  | Other e0 =>
      Some (mkPage (fst (handle NEXT_PUBLIC_API_URL e0 (cells p))) (inflight p),
            snd (handle NEXT_PUBLIC_API_URL e0 (cells p)))
  end.

Inductive reachable : Page -> Prop :=
| reachable_initial : reachable initialPage
| reachable_step p e p' effects :
    reachable p -> step p e = Some (p', effects) -> reachable p'.

(** The three parts run with nothing in between. *)
Definition uploadAtOnce (file : File.t) (upload : UploadReply)
    (listing : SummariesReply) (h : Home) : Home * list Effect :=
  let '(h1, e1, posted) := uploadBegin file h in
  if posted then
    let '(h2, e2, listed) := uploadSettled upload h1 in
    if listed then
      let '(h3, e3) := uploadListed listing h2 in (h3, (e1 ++ e2 ++ e3)%list)
    else (h2, (e1 ++ e2)%list)
  else (h1, e1).

End Upload.

End Async.

(* ===================================================================== *)
(** ** The document pipeline *)
(* ===================================================================== *)

Module Pipeline.

(** Modelled from the spec: the four values of a Document's [status]
    (section 3); the backend that defines them is not among the sources. *)
Inductive Status := UPLOADED | TEXT_READY | SUMMARY_READY | ERROR.

#[global] Instance Status_eq_dec : EqDecision Status.
Proof. solve_decision. Defined.

(** Modelled from the spec: the state machine of section 4.5, the four
    labelled edges and nothing else. *)
Inductive transition : Status -> Status -> Prop :=
| extract_success : transition UPLOADED TEXT_READY
| summarize_success : transition TEXT_READY SUMMARY_READY
| extract_failure : transition UPLOADED ERROR
| summarize_failure : transition TEXT_READY ERROR.

(** Modelled from the spec: SUMMARY_READY and ERROR are the terminal
    statuses (section 4.5). *)
Definition terminal (s : Status) : bool :=
  match s with
  | SUMMARY_READY | ERROR => true
  | UPLOADED | TEXT_READY => false
  end.

(** Modelled from the spec: the position of a status along
    [UPLOADED → TEXT_READY → SUMMARY_READY]; [ERROR] has none. *)
Definition stage (s : Status) : option nat :=
  match s with
  | UPLOADED => Some 0
  | TEXT_READY => Some 1
  | SUMMARY_READY => Some 2
  | ERROR => None
  end.

(** Modelled from the spec: the Document record of section 3.  Time is an
    integer clock reading. *)
Record Document := mkDocument {
  id : string;
  filename : string;
  status : Status;
  extracted_text : option string;
  summary : option string;
  error_detail : option string;
  updated_at : Z;
  raw_content_ref : string
}.

(** Modelled from the spec: the Document Store's errors (section 4.1). *)
Inductive StoreError := AlreadyExists | NotFound | Conflict.

(** Modelled from the spec: the mutations the two workers hand to
    [update] (sections 4.3 and 4.4), one per edge of the state machine. *)
Inductive Mutation :=
| ExtractSucceeded (text : string)
| ExtractFailed (detail : string)
| SummarizeSucceeded (summary : string)
| SummarizeFailed (detail : string).

(** Modelled from the spec: the pre-state a mutation expects. *)
Definition expected (m : Mutation) : Status :=
  match m with
  | ExtractSucceeded _ | ExtractFailed _ => UPLOADED
  | SummarizeSucceeded _ | SummarizeFailed _ => TEXT_READY
  end.

(** Modelled from the spec: the field changes of a mutation; every
    mutation also sets [updated_at] to the current time. *)
Definition apply_mutation (m : Mutation) (now : Z) (d : Document) : Document :=
  match m with
  | ExtractSucceeded text =>
      mkDocument (id d) (filename d) TEXT_READY (Some text) (summary d)
                 (error_detail d) now (raw_content_ref d)
  | SummarizeSucceeded s =>
      mkDocument (id d) (filename d) SUMMARY_READY (extracted_text d) (Some s)
                 (error_detail d) now (raw_content_ref d)
  | ExtractFailed detail | SummarizeFailed detail =>
      mkDocument (id d) (filename d) ERROR (extracted_text d) (summary d)
                 (Some detail) now (raw_content_ref d)
  end.

(** Modelled from the spec: the Document Store (section 4.1), a keyed
    record per [id].  Every operation returns the store it leaves behind
    together with its result. *)
Definition create (store : gmap string Document) (doc_id filename ref : string)
    (now : Z) : gmap string Document * (StoreError + Document) :=
  match store !! doc_id with
  | Some _ => (store, inl AlreadyExists)
  | None =>
      let d := mkDocument doc_id filename UPLOADED None None None now ref in
      (<[doc_id := d]> store, inr d)
  end.

(** Modelled from the spec: [get] (section 4.1), [NotFound] for an unknown
    [id]. *)
Definition get (store : gmap string Document) (doc_id : string)
  : StoreError + Document :=
  match store !! doc_id with
  | Some d => inr d
  | None => inl NotFound
  end.

(** Modelled from the spec: [update] compares the stored status with the
    expected pre-state and only then writes (compare-and-set). *)
Definition update (store : gmap string Document) (doc_id : string)
    (m : Mutation) (now : Z) : gmap string Document * (StoreError + Document) :=
  match store !! doc_id with
  | None => (store, inl NotFound)
  | Some d =>
      if decide (status d = expected m) then
        let d' := apply_mutation m now d in
        (<[doc_id := d']> store, inr d')
      else (store, inl Conflict)
  end.

(** Modelled from the spec: jobs and the work queue (sections 3 and 4.2).
    A queue holds the jobs that are not yet acknowledged, each under its
    delivery token; a delivered job stays until it is acknowledged, so it
    can be delivered again. *)
Inductive JobKind := EXTRACT | SUMMARIZE.

(** Modelled from the spec: the extraction mode a submission selects. *)
Inductive ExtractionMode := plain_text | markdown.

(** Modelled from the spec: a job carries its document, its kind, the
    extraction mode and the redelivery counter. *)

Record Job := mkJob {
  document_id : string;
  job_kind : JobKind;
  mode : ExtractionMode;
  deliveries : nat
}.

(** Modelled from the spec: the queue of one job kind. *)
Record Queue := mkQueue {
  pending : list (nat * Job);
  next_token : nat
}.

(** Modelled from the spec: a queue with no job. *)
Definition empty_queue : Queue := mkQueue [] 0.

(** Modelled from the spec: [enqueue] and [acknowledge] (section 4.2). *)
Definition enqueue (job : Job) (q : Queue) : Queue :=
  mkQueue (pending q ++ [(next_token q, job)]) (S (next_token q)).

Definition acknowledge (token : nat) (q : Queue) : Queue :=
  mkQueue (filter (λ e, negb (Nat.eqb (fst e) token)) (pending q)) (next_token q).

(** Modelled from the spec: a delivery that ends without acknowledgement;
    the job becomes visible again with its redelivery counter advanced. *)
Definition redeliver (token : nat) (q : Queue) : Queue :=
  mkQueue (map (λ e, if Nat.eqb (fst e) token
                     then (fst e, mkJob (document_id (snd e)) (job_kind (snd e))
                                        (mode (snd e)) (S (deliveries (snd e))))
                     else e) (pending q))
          (next_token q).

(** Modelled from the spec: the store and the two queues, one per job
    kind. *)
Record System := mkSystem {
  store : gmap string Document;
  extract_queue : Queue;
  summarize_queue : Queue
}.

(** Modelled from the spec: the system before any submission. *)
Definition initial : System := mkSystem ∅ empty_queue empty_queue.

(** Modelled from the spec: what a call to an external capability yields
    (sections 6 and 7). *)
Inductive Outcome :=
| Succeeded (result : string)
| PermanentFailure (reason : string)
| TransientFailure (reason : string).

(** Modelled from the spec: the submission errors (section 6). *)
Inductive SubmitError :=
| InvalidFileType
| FileTooLarge
| StoreRefused (e : StoreError).

Section Workers.

(** The configured maximum size and retry budget. *)
Variable max_size : Z.
Variable max_retries : nat.

(** Modelled from the spec: the Pipeline Coordinator's [submit]
    (section 4.5): validation first, then [create], then the EXTRACT job. *)
Definition submit (sys : System) (doc_id filename content_type : string)
    (size : Z) (ref : string) (m : ExtractionMode) (now : Z)
  : System * (SubmitError + string) :=
  if negb (String.eqb content_type "application/pdf") then (sys, inl InvalidFileType)
  else if (size >? max_size)%Z then (sys, inl FileTooLarge)
  else
    match create (store sys) doc_id filename ref now with
    | (_, inl e) => (sys, inl (StoreRefused e))
    | (store', inr d) =>
        (mkSystem store' (enqueue (mkJob doc_id EXTRACT m 0) (extract_queue sys))
                  (summarize_queue sys),
         inr doc_id)
    end.

(** Modelled from the spec: one delivery to the Extraction Worker
    (section 4.3). *)
Definition extraction_worker (sys : System) (token : nat) (job : Job)
    (outcome : Outcome) (now : Z) : System :=
  let acked := acknowledge token (extract_queue sys) in
  let fail reason :=
    mkSystem (fst (update (store sys) (document_id job) (ExtractFailed reason) now))
             acked (summarize_queue sys) in
  match get (store sys) (document_id job) with
  | inl _ => sys
  | inr d =>
      if negb (bool_decide (status d = UPLOADED)) then
        mkSystem (store sys) acked (summarize_queue sys)
      else
        match outcome with
        | Succeeded text =>
            match update (store sys) (document_id job) (ExtractSucceeded text) now with
            | (store', inr _) =>
                mkSystem store' acked
                  (enqueue (mkJob (document_id job) SUMMARIZE (mode job) 0)
                           (summarize_queue sys))
            | (store', inl _) => mkSystem store' acked (summarize_queue sys)
            end
        | PermanentFailure reason => fail reason
        | TransientFailure reason =>
            if (max_retries <=? S (deliveries job))%nat then fail reason
            else mkSystem (store sys) (redeliver token (extract_queue sys))
                          (summarize_queue sys)
        end
  end.

(** Modelled from the spec: one delivery to the Summarization Worker
    (section 4.4), symmetric; nothing is enqueued on success. *)
Definition summarization_worker (sys : System) (token : nat) (job : Job)
    (outcome : Outcome) (now : Z) : System :=
  let acked := acknowledge token (summarize_queue sys) in
  let write m :=
    mkSystem (fst (update (store sys) (document_id job) m now))
             (extract_queue sys) acked in
  match get (store sys) (document_id job) with
  | inl _ => sys
  | inr d =>
      if negb (bool_decide (status d = TEXT_READY)) then
        mkSystem (store sys) (extract_queue sys) acked
      else
        match outcome with
        | Succeeded s => write (SummarizeSucceeded s)
        | PermanentFailure reason => write (SummarizeFailed reason)
        | TransientFailure reason =>
            if (max_retries <=? S (deliveries job))%nat then write (SummarizeFailed reason)
            else mkSystem (store sys) (extract_queue sys)
                          (redeliver token (summarize_queue sys))
        end
  end.

(** Modelled from the spec: what may happen to the system: a submission,
    or the delivery of a pending job to the worker of its stage. *)
Inductive step : System -> System -> Prop :=
| step_submit sys doc_id filename content_type size ref m now :
    step sys (fst (submit sys doc_id filename content_type size ref m now))
| step_extract sys token job outcome now :
    (token, job) ∈ pending (extract_queue sys) ->
    step sys (extraction_worker sys token job outcome now)
| step_summarize sys token job outcome now :
    (token, job) ∈ pending (summarize_queue sys) ->
    step sys (summarization_worker sys token job outcome now).

End Workers.

(** Modelled from the spec: the invariant of section 3 that ties the
    optional fields to the status. *)
Definition consistent (d : Document) : Prop :=
  (is_Some (extracted_text d) ->
     status d = TEXT_READY \/ status d = SUMMARY_READY \/ status d = ERROR)
  /\ (status d = TEXT_READY \/ status d = SUMMARY_READY -> is_Some (extracted_text d))
  /\ (is_Some (summary d) <-> status d = SUMMARY_READY).

(** Modelled from the spec: the invariant, for every stored document. *)
Definition store_consistent (s : gmap string Document) : Prop :=
  forall doc_id d, s !! doc_id = Some d -> consistent d.

(** Modelled from the spec: every document of [s] is still in [s'], at
    the same status or one edge of the state machine further. *)
Definition store_evolves (s s' : gmap string Document) : Prop :=
  forall doc_id d, s !! doc_id = Some d ->
    exists d', s' !! doc_id = Some d'
      /\ (status d' = status d \/ transition (status d) (status d')).

(** Modelled from the spec: what one step can do to the store: nothing,
    one [create], or one [update]. *)
Inductive store_op (s : gmap string Document) : gmap string Document -> Prop :=
| op_none : store_op s s
| op_create doc_id filename ref now :
    store_op s (fst (create s doc_id filename ref now))
| op_update doc_id m now :
    store_op s (fst (update s doc_id m now)).

(** Modelled from the spec: an execution of the system, newest state
    first: it starts empty and takes one step at a time. *)
Inductive execution (max_size : Z) (max_retries : nat) : list System -> Prop :=
| execution_start : execution max_size max_retries [initial]
| execution_step sys sys' past :
    execution max_size max_retries (sys :: past) ->
    step max_size max_retries sys sys' ->
    execution max_size max_retries (sys' :: sys :: past).

(** Modelled from the spec: the document was TEXT_READY in one of the
    states, that is, its extraction succeeded there or before. *)
Definition was_text_ready (doc_id : string) (states : list System) : Prop :=
  exists sys d, sys ∈ states /\ store sys !! doc_id = Some d /\ status d = TEXT_READY.

(** Modelled from the spec: what holds of the newest state of an execution: the fields fit the
    statuses, a document has its text exactly if it was TEXT_READY at some
    time, and no document was ever lost. *)
Definition history_invariant (states : list System) : Prop :=
  match states with
  | [] => True
  | sys :: past =>
      store_consistent (store sys)
      /\ (forall doc_id d, store sys !! doc_id = Some d ->
            (is_Some (extracted_text d) <-> was_text_ready doc_id (sys :: past)))
      /\ (forall s doc_id, s ∈ sys :: past ->
            is_Some (store s !! doc_id) -> is_Some (store sys !! doc_id))
  end.

End Pipeline.

(* ===================================================================== *)
(** ** Properties of the page *)
(* ===================================================================== *)

Module FrontendSpec.
Import JS Frontend.

(** *** The string operations on concrete inputs *)

Example toLowerCase_mixed : toLowerCase "Report.PDF" = "report.pdf".
Proof. reflexivity. Qed.

Example endsWith_pdf :
  endsWith "report.pdf" ".pdf" = true
  /\ endsWith "pdf" ".pdf" = false
  /\ endsWith "report.pdf.txt" ".pdf" = false.
Proof. repeat split. Qed.

Example encodeURIComponent_escapes :
  encodeURIComponent "plain_text" = "plain_text"
  /\ encodeURIComponent "a b&c/d" = "a%20b%26c%2Fd".
Proof. repeat split. Qed.

Example upload_error_detail :
  uploadError (fst (handleFileUpload None (File.mk "paper.pdf" "application/pdf" 10)
                      (UploadNotOk (Some (Some "Quota exceeded")))
                      SummariesNotOk initialHome))
  = Some "Quota exceeded"
  /\ uploadError (fst (handleFileUpload None (File.mk "paper.pdf" "application/pdf" 10)
                         (UploadNotOk None) SummariesNotOk initialHome))
     = Some "Upload failed"
  /\ uploadError (fst (handleFileUpload None (File.mk "paper.pdf" "application/pdf" 10)
                         (UploadNotOk (Some None)) SummariesNotOk initialHome))
     = Some "Failed to upload PDF".
Proof. repeat split. Qed.

(** *** File validation *)

Lemma isInvalidFileType_true (f : File.t) :
  isInvalidFileType f = true <->
  File.type f <> "application/pdf"
  /\ endsWith (toLowerCase (File.name f)) ".pdf" = false.
Proof.
  unfold isInvalidFileType.
  rewrite andb_true_iff, !negb_true_iff, String.eqb_neq. reflexivity.
Qed.

Lemma isInvalidFileType_false (f : File.t) :
  isInvalidFileType f = false <->
  File.type f = "application/pdf"
  \/ endsWith (toLowerCase (File.name f)) ".pdf" = true.
Proof.
  unfold isInvalidFileType.
  rewrite andb_false_iff, !negb_false_iff, String.eqb_eq. reflexivity.
Qed.

Lemma isTooLarge_true (f : File.t) :
  isTooLarge f = true <-> (File.size f > maxSize)%Z.
Proof. unfold isTooLarge. rewrite Z.gtb_gt. lia. Qed.

Lemma isTooLarge_false (f : File.t) :
  isTooLarge f = false <-> (File.size f <= maxSize)%Z.
Proof.
  unfold isTooLarge. destruct (Z.gtb_spec (File.size f) maxSize); split;
    intros; (lia || congruence).
Qed.

(** The three ways through [handleFileUpload]. *)
Lemma upload_rejected_type env f up li h :
  isInvalidFileType f = true ->
  handleFileUpload env f up li h
  = (setUploadError (Some "Only PDF files are allowed") h, []).
Proof. intros E. unfold handleFileUpload. now rewrite E. Qed.

Lemma upload_rejected_size env f up li h :
  isInvalidFileType f = false -> isTooLarge f = true ->
  handleFileUpload env f up li h
  = (setUploadError (Some "File size must be less than 5MB") h, []).
Proof. intros E1 E2. unfold handleFileUpload. now rewrite E1, E2. Qed.

Lemma upload_accepted env f up li h :
  isInvalidFileType f = false -> isTooLarge f = false ->
  exists h' rest,
    handleFileUpload env f up li h
    = (h', POST (apiUrl env ++ "/summarize?mode="
                 ++ encodeURIComponent (extractionMode h)) f :: rest).
Proof.
  intros E1 E2. unfold handleFileUpload. rewrite E1, E2.
  destruct up as [err | errorData | err | ]; cbn -[String.append fetchSummaries];
    eexists _, _; reflexivity.
Qed.

Lemma upload_effects_imply_checks env f up li h e :
  e ∈ snd (handleFileUpload env f up li h) ->
  isInvalidFileType f = false /\ isTooLarge f = false.
Proof.
  destruct (isInvalidFileType f) eqn:E1.
  { rewrite upload_rejected_type by assumption. cbn. intros H. inversion H. }
  destruct (isTooLarge f) eqn:E2.
  { rewrite upload_rejected_size by assumption. cbn. intros H. inversion H. }
  auto.
Qed.

(** C1 (as amended).  A file whose content-type is not [application/pdf]
    and whose name does not end in [.pdf] (ignoring case) is refused with
    'Only PDF files are allowed' and nothing is sent; and whatever the
    file, a handler that issued any request had passed both the file-type
    check and the size check. *)
Theorem non_pdf_rejected_and_checks_precede_requests
    env (f : File.t) up li (h : Home) :
  (File.type f <> "application/pdf" ->
   endsWith (toLowerCase (File.name f)) ".pdf" = false ->
   handleFileUpload env f up li h
   = (setUploadError (Some "Only PDF files are allowed") h, []))
  /\ (forall e, e ∈ snd (handleFileUpload env f up li h) ->
        isInvalidFileType f = false /\ (File.size f <= maxSize)%Z).
Proof.
  split.
  - intros Ht Hn. apply upload_rejected_type, isInvalidFileType_true. auto.
  - intros e He. apply upload_effects_imply_checks in He as [E1 E2].
    split; [assumption | now apply isTooLarge_false].
Qed.

Lemma non_pdf_rejected_and_checks_precede_requests_witness :
  handleFileUpload None (File.mk "notes.txt" "text/plain" 2048) UploadOk
                   SummariesNotOk initialHome
  = (setUploadError (Some "Only PDF files are allowed") initialHome, [])
  /\ isInvalidFileType (File.mk "paper.pdf" "application/pdf" 2048) = false
  /\ (2048 <= maxSize)%Z.
Proof.
  split.
  - apply (non_pdf_rejected_and_checks_precede_requests
             None (File.mk "notes.txt" "text/plain" 2048) UploadOk SummariesNotOk
             initialHome); [discriminate | reflexivity].
  - apply (proj2 (non_pdf_rejected_and_checks_precede_requests
                    None (File.mk "paper.pdf" "application/pdf" 2048) UploadOk
                    SummariesNotOk initialHome)
                 (GET "http://localhost:8000/summaries")).
    vm_compute. apply list_elem_of_In. simpl. auto.
Defined.

(** C1 as stated fails: [report.pdf] sent with content-type [text/plain]
    is not refused; the POST goes out and no upload error is set. *)
Lemma non_pdf_type_with_pdf_name_is_uploaded :
  String.eqb (File.type (File.mk "report.pdf" "text/plain" 2048)) "application/pdf"
  = false
  /\ snd (handleFileUpload None (File.mk "report.pdf" "text/plain" 2048) UploadOk
                           SummariesNotOk initialHome)
     = [POST "http://localhost:8000/summarize?mode=plain_text"
             (File.mk "report.pdf" "text/plain" 2048);
        GET "http://localhost:8000/summaries";
        SetTimeout 3000]
  /\ uploadError (fst (handleFileUpload None (File.mk "report.pdf" "text/plain" 2048)
                                        UploadOk SummariesNotOk initialHome))
     = None.
Proof. repeat split. Qed.

(** C7 (as amended).  The maximum is 5 * 1024 * 1024 bytes.  A file of at
    most that size passes the size check, and is posted when it also passed
    the file-type check.  A strictly larger file is refused with nothing
    sent: with 'File size must be less than 5MB' when it passed the
    file-type check, with 'Only PDF files are allowed' otherwise. *)
Theorem size_limit_enforced env (f : File.t) up li (h : Home) :
  maxSize = 5242880%Z
  /\ ((File.size f <= maxSize)%Z ->
      isTooLarge f = false
      /\ (isInvalidFileType f = false ->
          exists h' rest,
            handleFileUpload env f up li h
            = (h', POST (apiUrl env ++ "/summarize?mode="
                         ++ encodeURIComponent (extractionMode h)) f :: rest)))
  /\ ((File.size f > maxSize)%Z ->
      handleFileUpload env f up li h
      = (setUploadError
           (Some (if isInvalidFileType f then "Only PDF files are allowed"
                  else "File size must be less than 5MB")) h, [])).
Proof.
  split; [reflexivity | split].
  - intros Hle. apply isTooLarge_false in Hle. split; [assumption |].
    intros Ht. now apply upload_accepted.
  - intros Hgt. apply isTooLarge_true in Hgt.
    destruct (isInvalidFileType f) eqn:Ht.
    + now apply upload_rejected_type.
    + now apply upload_rejected_size.
Qed.

Lemma size_limit_enforced_witness :
  isTooLarge (File.mk "paper.pdf" "application/pdf" 5242880) = false
  /\ handleFileUpload None (File.mk "paper.pdf" "application/pdf" 5242881)
                      UploadOk SummariesNotOk initialHome
     = (setUploadError (Some "File size must be less than 5MB") initialHome, []).
Proof.
  split.
  - apply (proj1 (proj2 (size_limit_enforced
             None (File.mk "paper.pdf" "application/pdf" 5242880) UploadOk
             SummariesNotOk initialHome))).
    vm_compute. discriminate.
  - apply (proj2 (proj2 (size_limit_enforced
             None (File.mk "paper.pdf" "application/pdf" 5242881) UploadOk
             SummariesNotOk initialHome))).
    reflexivity.
Defined.

(** C7 as stated fails: a file of 5 MB + 1 byte that is not a PDF is
    refused with the file-type message, not with the size message. *)
Lemma oversized_non_pdf_gets_type_error :
  (File.size (File.mk "notes.txt" "text/plain" 5242881) > maxSize)%Z
  /\ handleFileUpload None (File.mk "notes.txt" "text/plain" 5242881) UploadOk
                      SummariesNotOk initialHome
     = (setUploadError (Some "Only PDF files are allowed") initialHome, []).
Proof. split; reflexivity. Qed.

(** C8.  The file-type validation lets through every file whose name ends
    in [.pdf] (ignoring case), whatever its MIME type; the handler refuses
    with 'Only PDF files are allowed' exactly when the type is not
    [application/pdf] and the name does not end in [.pdf]. *)
Theorem file_type_validation env (f : File.t) up li (h : Home) :
  (endsWith (toLowerCase (File.name f)) ".pdf" = true ->
   isInvalidFileType f = false
   /\ handleFileUpload env f up li h
      <> (setUploadError (Some "Only PDF files are allowed") h, []))
  /\ (handleFileUpload env f up li h
      = (setUploadError (Some "Only PDF files are allowed") h, [])
      <-> File.type f <> "application/pdf"
          /\ endsWith (toLowerCase (File.name f)) ".pdf" = false).
Proof.
  assert (Hiff : handleFileUpload env f up li h
      = (setUploadError (Some "Only PDF files are allowed") h, [])
      <-> isInvalidFileType f = true).
  { split; [| apply upload_rejected_type].
    destruct (isInvalidFileType f) eqn:Ht; [reflexivity |].
    destruct (isTooLarge f) eqn:Hs.
    - rewrite upload_rejected_size by assumption.
      unfold setUploadError. intros H. inversion H.
    - destruct (upload_accepted env f up li h Ht Hs) as (h' & rest & ->).
      intros H. inversion H. }
  split.
  - intros Hn.
    assert (Ht : isInvalidFileType f = false)
      by (apply isInvalidFileType_false; auto).
    split; [assumption |]. rewrite Hiff, Ht. discriminate.
  - rewrite Hiff. apply isInvalidFileType_true.
Qed.

Lemma file_type_validation_witness :
  isInvalidFileType (File.mk "SCAN.PDF" "application/octet-stream" 10) = false
  /\ handleFileUpload None (File.mk "SCAN.PDF" "application/octet-stream" 10)
                      UploadOk SummariesNotOk initialHome
     <> (setUploadError (Some "Only PDF files are allowed") initialHome, []).
Proof.
  apply (proj1 (file_type_validation
           None (File.mk "SCAN.PDF" "application/octet-stream" 10) UploadOk
           SummariesNotOk initialHome)).
  reflexivity.
Defined.

(** *** Fetching the list *)

(** The typed reading of [fetchSummaries]: the list the response carried,
    the empty list for a missing or null field, the old list on failure;
    a failed silent fetch changes nothing. *)
Lemma fetchSummaries_typed_result env silent reply (h : Home) :
  summaries (fst (fetchSummaries env silent reply h))
  = match reply with
    | SummariesOk data => default [] (SummariesResponse.summaries data)
    | _ => summaries h
    end
  /\ (silent = true -> (forall data, reply <> SummariesOk data) ->
      fst (fetchSummaries env silent reply h) = h).
Proof.
  split.
  - destruct reply, silent; reflexivity.
  - intros -> Hfail. destruct reply as [err | | err | data];
      [| | | now destruct (Hfail data)]; reflexivity.
Qed.

(** On replies and states that have the declared types, the run-time
    reading and the typed reading of [fetchSummaries] agree. *)
Lemma runtime_fetchSummaries_typed env text silent reply (h : Home) :
  Runtime.fetchSummaries env text silent (Runtime.replyOf reply) (Runtime.cellsOf h)
  = (Runtime.cellsOf (fst (fetchSummaries env silent reply h)),
     snd (fetchSummaries env silent reply h)).
Proof.
  destruct reply as [err | | err | [[l |] count]], silent; reflexivity.
Qed.

Lemma runtime_fetchSummaries_failed env text silent reply (c : Runtime.Cells) :
  (forall data, reply <> Runtime.Parsed data) \/ reply = Runtime.Parsed JNull ->
  Runtime.summaries (fst (Runtime.fetchSummaries env text silent reply c))
  = Runtime.summaries c
  /\ (silent = true -> fst (Runtime.fetchSummaries env text silent reply c) = c).
Proof.
  intros [Hfail | ->].
  - destruct reply as [err | | err | data]; [| | | now destruct (Hfail data)];
      destruct silent; split; try reflexivity; discriminate.
  - destruct silent; split; try reflexivity; discriminate.
Qed.

Lemma runtime_fetchSummaries_parsed env text silent data (c : Runtime.Cells) :
  data <> JNull ->
  Runtime.summaries (fst (Runtime.fetchSummaries env text silent (Runtime.Parsed data) c))
  = match prop "summaries" data with
    | Some v => if Runtime.truthy v then v else JArray []
    | None => JArray []
    end.
Proof.
  intros Hnull. destruct data; try (now destruct Hnull); destruct silent; reflexivity.
Qed.

(** C9 (as amended).  [fetchSummaries] stores [data.summaries || []]
    unchecked.  After a completed call the [summaries] cell is an array
    whenever it was one before and the response's [summaries] field is an
    array or falsy (missing, null, ...): a missing or null field yields the
    empty array, a failed call keeps the cell as it was, and a truthy value
    is stored as it is.  In silent mode a failed call (a body that is
    [null] included) changes neither [error] nor [loading], nor any other
    cell.  On well-typed replies this is the typed [fetchSummaries]. *)
Theorem fetchSummaries_stores_field_unchecked
    env text silent reply (c : Runtime.Cells) :
  (forall data, reply = Runtime.Parsed data -> data <> JNull ->
     Runtime.summaries (fst (Runtime.fetchSummaries env text silent reply c))
     = match prop "summaries" data with
       | Some v => if Runtime.truthy v then v else JArray []
       | None => JArray []
       end)
  /\ (forall data, reply = Runtime.Parsed data -> data <> JNull ->
        prop "summaries" data = None \/ prop "summaries" data = Some JNull ->
        Runtime.summaries (fst (Runtime.fetchSummaries env text silent reply c))
        = JArray [])
  /\ ((forall data, reply <> Runtime.Parsed data) \/ reply = Runtime.Parsed JNull ->
      Runtime.summaries (fst (Runtime.fetchSummaries env text silent reply c))
      = Runtime.summaries c)
  /\ (Runtime.isArray (Runtime.summaries c) = true ->
      (forall data v, reply = Runtime.Parsed data ->
         prop "summaries" data = Some v -> Runtime.truthy v = true ->
         Runtime.isArray v = true) ->
      Runtime.isArray
        (Runtime.summaries (fst (Runtime.fetchSummaries env text silent reply c)))
      = true)
  /\ (silent = true ->
      (forall data, reply <> Runtime.Parsed data) \/ reply = Runtime.Parsed JNull ->
      Runtime.error (fst (Runtime.fetchSummaries env text silent reply c))
      = Runtime.error c
      /\ Runtime.loading (fst (Runtime.fetchSummaries env text silent reply c))
         = Runtime.loading c
      /\ fst (Runtime.fetchSummaries env text silent reply c) = c)
  /\ (forall typed (h : Home),
        reply = Runtime.replyOf typed -> c = Runtime.cellsOf h ->
        Runtime.fetchSummaries env text silent reply c
        = (Runtime.cellsOf (fst (fetchSummaries env silent typed h)),
           snd (fetchSummaries env silent typed h))).
Proof.
  split; [| split; [| split; [| split; [| split]]]].
  - intros data -> Hnull. now apply runtime_fetchSummaries_parsed.
  - intros data -> Hnull Hfield.
    rewrite (runtime_fetchSummaries_parsed _ _ _ _ _ Hnull).
    destruct Hfield as [-> | ->]; reflexivity.
  - intros Hfail. now apply runtime_fetchSummaries_failed.
  - intros Harr Hfield.
    destruct reply as [err | | err | data]; try (destruct silent; exact Harr).
    assert (Hcases : data = JNull \/ data <> JNull)
      by (destruct data; solve [now left | right; discriminate]).
    destruct Hcases as [-> | Hnull].
    + destruct silent; exact Harr.
    + rewrite (runtime_fetchSummaries_parsed _ _ _ _ _ Hnull).
      destruct (prop "summaries" data) as [v |] eqn:Hv; [| reflexivity].
      destruct (Runtime.truthy v) eqn:Ht; [| reflexivity].
      now apply (Hfield data v).
  - intros Hs Hfail.
    destruct (runtime_fetchSummaries_failed env text silent reply c Hfail) as [_ H].
    rewrite (H Hs). auto.
  - intros typed h -> ->. apply runtime_fetchSummaries_typed.
Qed.

Lemma fetchSummaries_stores_field_unchecked_witness :
  Runtime.isArray
    (Runtime.summaries (fst (Runtime.fetchSummaries None "TypeError" false
       (Runtime.Parsed (JObject [("summaries", JArray [JObject []]);
                                 ("count", JNumber 1)]))
       (Runtime.cellsOf initialHome))))
  = true
  /\ fst (Runtime.fetchSummaries None "TypeError" true (Runtime.Parsed JNull)
            (Runtime.cellsOf initialHome))
     = Runtime.cellsOf initialHome.
Proof.
  split.
  - refine (proj1 (proj2 (proj2 (proj2 (fetchSummaries_stores_field_unchecked
              None "TypeError" false
              (Runtime.Parsed (JObject [("summaries", JArray [JObject []]);
                                        ("count", JNumber 1)]))
              (Runtime.cellsOf initialHome))))) _ _).
    + reflexivity.
    + intros data v [= <-] Hv Ht. vm_compute in Hv. injection Hv as <-. reflexivity.
  - refine (proj2 (proj2 (proj1 (proj2 (proj2 (proj2 (proj2
              (fetchSummaries_stores_field_unchecked None "TypeError" true
                 (Runtime.Parsed JNull) (Runtime.cellsOf initialHome))))))
              _ _))).
    + reflexivity.
    + right. reflexivity.
Defined.

(** C9 as stated fails: a response whose [summaries] field is the string
    [abc] leaves the string in the [summaries] cell, which held an array
    before and is no array afterwards. *)
Lemma truthy_non_array_summaries_is_stored :
  Runtime.isArray (Runtime.summaries (Runtime.cellsOf initialHome)) = true
  /\ Runtime.summaries (fst (Runtime.fetchSummaries None "TypeError" false
       (Runtime.Parsed (JObject [("summaries", JString "abc"); ("count", JNumber 1)]))
       (Runtime.cellsOf initialHome)))
     = JString "abc"
  /\ Runtime.isArray
       (Runtime.summaries (fst (Runtime.fetchSummaries None "TypeError" false
          (Runtime.Parsed (JObject [("summaries", JString "abc"); ("count", JNumber 1)]))
          (Runtime.cellsOf initialHome))))
     = false.
Proof. repeat split. Qed.

(** *** Status strings *)

Lemma toLowerCase_idempotent (s : string) :
  toLowerCase (toLowerCase s) = toLowerCase s.
Proof.
  induction s as [| c r IH]; [reflexivity |].
  cbn [toLowerCase]. rewrite IH. f_equal.
  unfold lower_ascii.
  destruct ((65 <=? N_of_ascii c)%N && (N_of_ascii c <=? 90)%N) eqn:E.
  - apply andb_true_iff in E as [E1 E2].
    apply N.leb_le in E1. apply N.leb_le in E2.
    rewrite N_ascii_embedding by lia.
    replace ((65 <=? N_of_ascii c + 32)%N && (N_of_ascii c + 32 <=? 90)%N)
      with false; [reflexivity |].
    symmetry. apply andb_false_iff. right. apply N.leb_gt. lia.
  - now rewrite E.
Qed.

(** C10.  [getStatusColor] is a total function of the lower-cased status:
    statuses equal up to case get the same style (and the same answer from
    the polling condition); each of UPLOADED, TEXT_READY, SUMMARY_READY
    and ERROR, in any case, gets its own style; every other string gets
    the default gray style. *)
Theorem getStatusColor_case_insensitive_total (status : string) :
  (forall other, toLowerCase other = toLowerCase status ->
     getStatusColor other = getStatusColor status)
  /\ (forall s1 s2 : Summary.t,
        toLowerCase (Summary.status s1) = toLowerCase (Summary.status s2) ->
        inProgress s1 = inProgress s2)
  /\ getStatusColor (toLowerCase status) = getStatusColor status
  /\ (toLowerCase status = toLowerCase "UPLOADED" ->
      getStatusColor status = "bg-blue-100 text-blue-800")
  /\ (toLowerCase status = toLowerCase "TEXT_READY" ->
      getStatusColor status = "bg-yellow-100 text-yellow-800")
  /\ (toLowerCase status = toLowerCase "SUMMARY_READY" ->
      getStatusColor status = "bg-green-100 text-green-800")
  /\ (toLowerCase status = toLowerCase "ERROR" ->
      getStatusColor status = "bg-red-100 text-red-800")
  /\ (toLowerCase status
        ∉ map toLowerCase ["UPLOADED"; "TEXT_READY"; "SUMMARY_READY"; "ERROR"] ->
      getStatusColor status = "bg-gray-100 text-gray-800").
Proof.
  repeat apply conj.
  - intros other E. unfold getStatusColor. now rewrite E.
  - intros s1 s2 E. unfold inProgress. now rewrite E.
  - unfold getStatusColor. now rewrite toLowerCase_idempotent.
  - intros E. unfold getStatusColor. now rewrite E.
  - intros E. unfold getStatusColor. now rewrite E.
  - intros E. unfold getStatusColor. now rewrite E.
  - intros E. unfold getStatusColor. now rewrite E.
  - intros Hnot. unfold getStatusColor.
    repeat match goal with
    | |- context [String.eqb ?a ?b] =>
        destruct (String.eqb_spec a b) as [E | _];
        [exfalso; apply Hnot; rewrite E; cbn; set_solver |]
    end.
    reflexivity.
Qed.

Lemma getStatusColor_case_insensitive_total_witness :
  getStatusColor "Text_Ready" = "bg-yellow-100 text-yellow-800"
  /\ getStatusColor "queued" = "bg-gray-100 text-gray-800".
Proof.
  split.
  - apply (getStatusColor_case_insensitive_total "Text_Ready"). reflexivity.
  - apply (getStatusColor_case_insensitive_total "queued").
    vm_compute. intros H. apply list_elem_of_In in H. simpl in H.
    repeat destruct H as [H | H]; try discriminate H; exact H.
Defined.

(** *** Polling *)

Lemma hasInProgressSummaries_true (l : list Summary.t) :
  hasInProgressSummaries l = true <->
  exists s, s ∈ l
    /\ (toLowerCase (Summary.status s) = "uploaded"
        \/ toLowerCase (Summary.status s) = "text_ready").
Proof.
  unfold hasInProgressSummaries. rewrite existsb_exists.
  split; intros (s & Hin & Hs); exists s.
  - split; [now apply list_elem_of_In |].
    unfold inProgress in Hs. apply orb_true_iff in Hs.
    now rewrite !String.eqb_eq in Hs.
  - split; [now apply list_elem_of_In |].
    unfold inProgress. apply orb_true_iff. now rewrite !String.eqb_eq.
Qed.

(** The interval a reachable page holds is the one the effect computes
    from the current list. *)
Lemma reachable_pollInterval env (p : Page) :
  reachable env p -> pollInterval p = pollEffect (summaries (home p)).
Proof.
  induction 1 as [| p e p' effects _ _ Hstep]; [reflexivity |].
  destruct e; cbn in Hstep;
    try (injection Hstep as <- _; reflexivity).
  destruct (pollInterval p); [| discriminate].
  injection Hstep as <- _. reflexivity.
Qed.

Lemma canonical_status_lower (s : string) :
  s ∈ ["UPLOADED"; "TEXT_READY"; "SUMMARY_READY"; "ERROR"] ->
  (toLowerCase s = "uploaded" <-> s = "UPLOADED")
  /\ (toLowerCase s = "text_ready" <-> s = "TEXT_READY").
Proof.
  intros H. apply list_elem_of_In in H. simpl in H.
  destruct H as [<- | [<- | [<- | [<- | []]]]]; split; split; intros E;
    try reflexivity; discriminate E.
Qed.

(** C4.  On every reachable page the polling interval is armed, so that
    its callback can fetch the list again, exactly when some listed
    summary has status UPLOADED or TEXT_READY (compared ignoring case, and
    literally when the statuses are the four upper-case names); the
    callback issues one GET of the list; with no such summary there is no
    interval. *)
Theorem polling_exactly_while_in_progress env (p : Page) :
  reachable env p ->
  ((exists reply r, step env p (PollTick reply) = Some r) <->
   exists s, s ∈ summaries (home p)
     /\ (toLowerCase (Summary.status s) = "uploaded"
         \/ toLowerCase (Summary.status s) = "text_ready"))
  /\ ((forall s, s ∈ summaries (home p) ->
         Summary.status s ∈ ["UPLOADED"; "TEXT_READY"; "SUMMARY_READY"; "ERROR"]) ->
      ((exists reply r, step env p (PollTick reply) = Some r) <->
       exists s, s ∈ summaries (home p)
         /\ (Summary.status s = "UPLOADED" \/ Summary.status s = "TEXT_READY")))
  /\ (forall reply r, step env p (PollTick reply) = Some r ->
        snd r = [GET (apiUrl env ++ "/summaries")])
  /\ ((forall s, s ∈ summaries (home p) ->
         toLowerCase (Summary.status s) <> "uploaded"
         /\ toLowerCase (Summary.status s) <> "text_ready") ->
      pollInterval p = None /\ forall reply, step env p (PollTick reply) = None).
Proof.
  intros Hreach. pose proof (reachable_pollInterval env p Hreach) as Hint.
  assert (Hact : (exists reply r, step env p (PollTick reply) = Some r) <->
                 hasInProgressSummaries (summaries (home p)) = true).
  { cbn. rewrite Hint. unfold pollEffect.
    destruct (hasInProgressSummaries (summaries (home p))).
    - split; [reflexivity |]. intros _. exists SummariesNotOk. eexists; reflexivity.
    - split; [| discriminate]. intros (reply & r & H). discriminate H. }
  split; [| split; [| split]].
  - now rewrite Hact, hasInProgressSummaries_true.
  - intros Hcanon. rewrite Hact, hasInProgressSummaries_true.
    split; intros (s & Hin & Hs); exists s; (split; [assumption |]);
      destruct (canonical_status_lower _ (Hcanon s Hin)) as [H1 H2];
      rewrite H1, H2 in *; assumption.
  - intros reply r. cbn. destruct (pollInterval p); [| discriminate].
    intros H. injection H as <-. reflexivity.
  - intros Hnone.
    assert (E : hasInProgressSummaries (summaries (home p)) = false).
    { destruct (hasInProgressSummaries (summaries (home p))) eqn:E; [| reflexivity].
      apply hasInProgressSummaries_true in E as (s & Hin & Hs).
      destruct (Hnone s Hin) as [N1 N2]. destruct Hs; contradiction. }
    assert (Hnoint : pollInterval p = None).
    { rewrite Hint. unfold pollEffect. now rewrite E. }
    split; [assumption |]. intros reply. cbn. now rewrite Hnoint.
Qed.

Lemma polling_exactly_while_in_progress_witness :
  exists s,
    s ∈ summaries (home (render (fst (fetchSummaries None false
          (SummariesOk (SummariesResponse.mk
             (Some [Summary.mk "f1" "paper.pdf" "UPLOADED" "" "" "2025-01-01"]) 1))
          initialHome))))
    /\ (Summary.status s = "UPLOADED" \/ Summary.status s = "TEXT_READY").
Proof.
  refine (proj1 (proj1 (proj2 (polling_exactly_while_in_progress None _ _)) _) _).
  - eapply reachable_step with (p := initialPage)
      (e := Mount (SummariesOk (SummariesResponse.mk
              (Some [Summary.mk "f1" "paper.pdf" "UPLOADED" "" "" "2025-01-01"]) 1))).
    + apply reachable_initial.
    + reflexivity.
  - intros s Hs. apply list_elem_of_In in Hs. simpl in Hs.
    destruct Hs as [<- | []]. apply list_elem_of_In. simpl. auto.
  - exists SummariesNotOk. eexists. reflexivity.
Defined.

(** *** The shape of the list response *)

Lemma Summary_of_to_json (s : Summary.t) :
  Summary_of_json (Summary_to_json s) = Some s.
Proof. destruct s. reflexivity. Qed.

Lemma Summaries_of_to_json (l : list Summary.t) :
  mapM Summary_of_json (map Summary_to_json l) = Some l.
Proof.
  induction l as [| s l IH]; [reflexivity |].
  cbn [map mapM]. rewrite Summary_of_to_json, IH. reflexivity.
Qed.

(** A value that lacks one of the six properties is not a [Summary]. *)
Lemma Summary_of_json_needs_field (v : JSON) (k : string) :
  k ∈ Summary_fields -> prop k v = None -> Summary_of_json v = None.
Proof.
  intros Hk Hnone. apply list_elem_of_In in Hk. simpl in Hk.
  assert (Hs : prop_string k v = None) by (unfold prop_string; now rewrite Hnone).
  unfold Summary_of_json.
  destruct Hk as [<- | [<- | [<- | [<- | [<- | [<- | []]]]]]];
    rewrite Hs;
    repeat match goal with
           | |- context [prop_string ?key v] =>
               lazymatch goal with
               | H : prop_string key v = None |- _ => fail
               | _ => destruct (prop_string key v)
               end
           end; reflexivity.
Qed.

(** C3 (as amended).  The client consumes the list response as an object
    [{summaries: [...], count}] whose entries expose exactly the fields
    [{file_id, filename, status, text, summary, updated_at}]: such a body
    has the type [SummariesResponse], [fetchSummaries] stores its entries
    unchanged and in order, and an entry that lacks one of the six fields
    is not a [Summary]. *)
Theorem list_consumed_under_interface_shape
    env silent (l : list Summary.t) (count : Z) (h : Home) :
  keys (SummariesResponse_to_json l count) = ["summaries"; "count"]
  /\ SummariesResponse_of_json (SummariesResponse_to_json l count)
     = Some (SummariesResponse.mk (Some l) count)
  /\ summaries (fst (fetchSummaries env silent
                       (SummariesOk (SummariesResponse.mk (Some l) count)) h)) = l
  /\ (forall s : Summary.t,
        keys (Summary_to_json s)
        = ["file_id"; "filename"; "status"; "text"; "summary"; "updated_at"]
        /\ Summary_of_json (Summary_to_json s) = Some s)
  /\ (forall (v : JSON) (k : string),
        k ∈ ["file_id"; "filename"; "status"; "text"; "summary"; "updated_at"] ->
        prop k v = None -> Summary_of_json v = None).
Proof.
  split; [reflexivity | split; [| split; [| split]]].
  - unfold SummariesResponse_of_json, SummariesResponse_to_json.
    cbn -[mapM]. rewrite Summaries_of_to_json. reflexivity.
  - destruct silent; reflexivity.
  - intros s. split; [reflexivity | apply Summary_of_to_json].
  - apply Summary_of_json_needs_field.
Qed.

Lemma list_consumed_under_interface_shape_witness :
  Summary_of_json
    (JObject [("id", JString "f1"); ("filename", JString "paper.pdf");
              ("status", JString "UPLOADED"); ("extracted_text", JString "");
              ("summary", JString ""); ("updated_at", JString "2025-01-01")])
  = None.
Proof.
  apply (proj2 (proj2 (proj2 (proj2 (list_consumed_under_interface_shape
           None false [] 0 initialHome))))
           _ "file_id").
  - apply list_elem_of_In. simpl. auto.
  - reflexivity.
Defined.

(** C3 as stated fails: a response in the shape the specification gives,
    [{documents: [d], count: 1}] with [d] exposing
    [{id, filename, status, extracted_text, summary, updated_at}], is read
    by the client as a response without [summaries]: the list it shows is
    empty, and [d] itself is not a [Summary]. *)
Lemma spec_shaped_list_is_consumed_as_empty :
  SummariesResponse_of_json
    (SpecShape.list_response
       [SpecShape.mkDocument "f1" "paper.pdf" "UPLOADED" "" "" "2025-01-01"])
  = Some (SummariesResponse.mk None 1)
  /\ summaries (fst (fetchSummaries None false
                       (SummariesOk (SummariesResponse.mk None 1)) initialHome))
     = []
  /\ Summary_of_json
       (SpecShape.Document_to_json
          (SpecShape.mkDocument "f1" "paper.pdf" "UPLOADED" "" "" "2025-01-01"))
     = None.
Proof. repeat split. Qed.

End FrontendSpec.

(* ===================================================================== *)
(** ** Properties of the pipeline *)
(* ===================================================================== *)

Module PipelineSpec.
Import Pipeline.

(** *** The store operations *)

Lemma update_success (s : gmap string Document) doc_id m now d :
  s !! doc_id = Some d -> status d = expected m ->
  update s doc_id m now
  = (<[doc_id := apply_mutation m now d]> s, inr (apply_mutation m now d)).
Proof.
  intros Hd Hs. unfold update. rewrite Hd.
  destruct (decide (status d = expected m)); [reflexivity | contradiction].
Qed.

Lemma update_conflict (s : gmap string Document) doc_id m now d :
  s !! doc_id = Some d -> status d <> expected m ->
  update s doc_id m now = (s, inl Conflict).
Proof.
  intros Hd Hs. unfold update. rewrite Hd.
  destruct (decide (status d = expected m)); [contradiction | reflexivity].
Qed.

Lemma update_not_found (s : gmap string Document) doc_id m now :
  s !! doc_id = None -> update s doc_id m now = (s, inl NotFound).
Proof. intros Hd. unfold update. now rewrite Hd. Qed.

Lemma apply_mutation_transition m now d :
  status d = expected m ->
  transition (status d) (status (apply_mutation m now d)).
Proof. intros ->. destruct m; constructor. Qed.

Lemma apply_mutation_leaves_expected m m' now d :
  status d = expected m -> expected m' = expected m ->
  status (apply_mutation m now d) <> expected m'.
Proof. intros _ E. destruct m, m'; cbn in *; congruence. Qed.

Lemma transition_from_live a b : transition a b -> terminal a = false.
Proof. now destruct 1. Qed.

Lemma store_evolves_refl (s : gmap string Document) : store_evolves s s.
Proof. intros doc_id d Hd. exists d. auto. Qed.

Lemma update_evolves (s : gmap string Document) doc_id m now :
  store_evolves s (fst (update s doc_id m now)).
Proof.
  unfold update. destruct (s !! doc_id) as [d |] eqn:Hd;
    [| apply store_evolves_refl].
  destruct (decide (status d = expected m)) as [E |]; [| apply store_evolves_refl].
  intros k dk Hk. cbn. destruct (decide (k = doc_id)) as [-> |].
  - rewrite lookup_insert_eq. eexists; split; [reflexivity |].
    assert (dk = d) as -> by congruence.
    right. now apply apply_mutation_transition.
  - rewrite lookup_insert_ne by congruence. exists dk. auto.
Qed.

Lemma create_evolves (s : gmap string Document) doc_id filename ref now :
  store_evolves s (fst (create s doc_id filename ref now)).
Proof.
  unfold create. destruct (s !! doc_id) eqn:Hd; [apply store_evolves_refl |].
  intros k dk Hk. cbn. exists dk. split; [| auto].
  rewrite lookup_insert_ne; [assumption | congruence].
Qed.

(** *** The steps of the system *)

Section Steps.
Variable max_size : Z.
Variable max_retries : nat.

Lemma submit_store_op sys doc_id filename content_type size ref m now :
  store_op (store sys)
    (store (fst (submit max_size sys doc_id filename content_type size ref m now))).
Proof.
  unfold submit.
  destruct (negb _); [constructor |]. destruct (_ >? _)%Z; [constructor |].
  pose proof (op_create (store sys) doc_id filename ref now) as H.
  destruct (create (store sys) doc_id filename ref now) as [s' [e | d]] eqn:E.
  - constructor.
  - exact H.
Qed.

Lemma extraction_worker_store_op sys token job outcome now :
  store_op (store sys)
    (store (extraction_worker max_retries sys token job outcome now)).
Proof.
  unfold extraction_worker.
  destruct (get (store sys) (document_id job)) as [e | d]; [constructor |].
  destruct (negb _); [constructor |].
  destruct outcome as [text | reason | reason].
  - pose proof (op_update (store sys) (document_id job) (ExtractSucceeded text) now) as H.
    destruct (update _ _ _ _) as [s' [e | d']]; exact H.
  - apply op_update.
  - destruct (_ <=? _)%nat; [apply op_update | constructor].
Qed.

Lemma summarization_worker_store_op sys token job outcome now :
  store_op (store sys)
    (store (summarization_worker max_retries sys token job outcome now)).
Proof.
  unfold summarization_worker.
  destruct (get (store sys) (document_id job)) as [e | d]; [constructor |].
  destruct (negb _); [constructor |].
  destruct outcome as [text | reason | reason].
  - apply op_update.
  - apply op_update.
  - destruct (_ <=? _)%nat; [apply op_update | constructor].
Qed.

Lemma step_store_op sys sys' :
  step max_size max_retries sys sys' -> store_op (store sys) (store sys').
Proof.
  destruct 1.
  - apply submit_store_op.
  - apply extraction_worker_store_op.
  - apply summarization_worker_store_op.
Qed.

Lemma store_op_evolves s s' : store_op s s' -> store_evolves s s'.
Proof.
  destruct 1.
  - apply store_evolves_refl.
  - apply create_evolves.
  - apply update_evolves.
Qed.

End Steps.

(** *** Paths of the state machine *)

Lemma path_terminal a b :
  rtc transition a b -> terminal a = true -> b = a.
Proof.
  induction 1 as [| a c b Hac _ _]; [reflexivity |].
  intros Ht. apply transition_from_live in Hac. congruence.
Qed.

Lemma path_stage a b :
  rtc transition a b ->
  b = ERROR
  \/ exists n n', stage a = Some n /\ stage b = Some n' /\ n <= n'.
Proof.
  induction 1 as [a | a c b Hac _ IH].
  - destruct a; [right | right | right | left]; try reflexivity;
      eexists _, _; repeat split; lia.
  - destruct IH as [-> | (n & n' & Hc & Hb & Hle)]; [now left |].
    right. destruct Hac; cbn in Hc; try discriminate;
      injection Hc as <-; eexists _, n'; repeat split; try eassumption; lia.
Qed.

Section Monotone.
Variable max_size : Z.
Variable max_retries : nat.

Lemma step_evolves sys sys' :
  step max_size max_retries sys sys' -> store_evolves (store sys) (store sys').
Proof. intros H. eapply store_op_evolves, step_store_op, H. Qed.

Lemma steps_follow_path sys sys' :
  rtc (step max_size max_retries) sys sys' ->
  forall doc_id d, store sys !! doc_id = Some d ->
    exists d', store sys' !! doc_id = Some d'
      /\ rtc transition (status d) (status d').
Proof.
  induction 1 as [sys | sys mid sys' Hstep _ IH]; intros doc_id d Hd.
  - exists d. split; [assumption | constructor].
  - destruct (step_evolves _ _ Hstep doc_id d Hd) as (d1 & Hd1 & Hone).
    destruct (IH doc_id d1 Hd1) as (d' & Hd' & Hpath).
    exists d'. split; [assumption |].
    destruct Hone as [E | T].
    + now rewrite <- E.
    + eapply rtc_l; eassumption.
Qed.

End Monotone.

(** C2.  Whatever the system does, a document stays in the store and its
    status moves along the edges of the state machine only: one step keeps
    the status or takes one edge; over any number of steps the statuses
    form a path of the machine, hence either advance (weakly) along
    UPLOADED, TEXT_READY, SUMMARY_READY or end in ERROR, which is entered
    from a non-terminal status only; from SUMMARY_READY or ERROR the status
    never changes again. *)
Theorem status_follows_state_machine
    (max_size : Z) (max_retries : nat) (sys : System) (doc_id : string)
    (d : Document) :
  store sys !! doc_id = Some d ->
  (forall sys', step max_size max_retries sys sys' ->
     exists d', store sys' !! doc_id = Some d'
       /\ (status d' = status d \/ transition (status d) (status d')))
  /\ (forall sys', rtc (step max_size max_retries) sys sys' ->
        exists d', store sys' !! doc_id = Some d'
          /\ rtc transition (status d) (status d')
          /\ (status d' = ERROR
              \/ exists n n', stage (status d) = Some n
                   /\ stage (status d') = Some n' /\ n <= n')
          /\ (status d' = ERROR -> status d <> ERROR -> terminal (status d) = false)
          /\ (terminal (status d) = true -> status d' = status d))
  /\ (forall a b, transition a b -> terminal a = false).
Proof.
  intros Hd. split; [| split].
  - intros sys' Hstep. exact (step_evolves _ _ _ _ Hstep doc_id d Hd).
  - intros sys' Hsteps.
    destruct (steps_follow_path _ _ _ _ Hsteps doc_id d Hd) as (d' & Hd' & Hpath).
    exists d'. split; [assumption | split; [assumption | split; [| split]]].
    + now apply path_stage.
    + intros He Hne. destruct (terminal (status d)) eqn:Ht; [| reflexivity].
      apply (path_terminal _ _ Hpath) in Ht. congruence.
    + now apply path_terminal.
  - apply transition_from_live.
Qed.

Lemma status_follows_state_machine_witness :
  exists d',
    store (extraction_worker 3
             (fst (submit 5242880 initial "d1" "paper.pdf" "application/pdf" 10240
                          "blob-1" plain_text 100))
             0 (mkJob "d1" EXTRACT plain_text 0) (Succeeded "some text") 101)
      !! "d1" = Some d'
    /\ (status d'
        = status (mkDocument "d1" "paper.pdf" UPLOADED None None None 100 "blob-1")
        \/ transition
             (status (mkDocument "d1" "paper.pdf" UPLOADED None None None 100 "blob-1"))
             (status d')).
Proof.
  refine (proj1 (status_follows_state_machine 5242880 3
            (fst (submit 5242880 initial "d1" "paper.pdf" "application/pdf" 10240
                         "blob-1" plain_text 100))
            "d1" (mkDocument "d1" "paper.pdf" UPLOADED None None None 100 "blob-1")
            _) _ _).
  - vm_compute. reflexivity.
  - apply step_extract. vm_compute. apply list_elem_of_In. simpl. auto.
Defined.

(** *** Optional fields and status *)

Lemma apply_mutation_consistent m now d :
  consistent d -> status d = expected m -> consistent (apply_mutation m now d).
Proof.
  unfold consistent, is_Some. intros (Htext & Hready & Hsummary) E.
  destruct m; cbn in *; rewrite E in *;
    (split; [| split; [| split]]);
    try solve [ intuition (eauto; congruence) ];
    intros Hs; apply Hsummary in Hs; discriminate.
Qed.

Lemma create_consistent (s : gmap string Document) doc_id filename ref now :
  store_consistent s -> store_consistent (fst (create s doc_id filename ref now)).
Proof.
  intros Hs. unfold create. destruct (s !! doc_id) eqn:Hd; [exact Hs |].
  intros k dk. cbn. destruct (decide (k = doc_id)) as [-> |].
  - rewrite lookup_insert_eq. intros [= <-].
    unfold consistent, is_Some; cbn.
    (split; [| split; [| split]]);
      solve [ intuition congruence | intros [x Hx]; discriminate ].
  - rewrite lookup_insert_ne by congruence. apply Hs.
Qed.

Lemma update_consistent (s : gmap string Document) doc_id m now :
  store_consistent s -> store_consistent (fst (update s doc_id m now)).
Proof.
  intros Hs. unfold update. destruct (s !! doc_id) as [d |] eqn:Hd; [| exact Hs].
  destruct (decide (status d = expected m)) as [E |]; [| exact Hs].
  intros k dk. cbn. destruct (decide (k = doc_id)) as [-> |].
  - rewrite lookup_insert_eq. intros [= <-].
    apply apply_mutation_consistent; [eapply Hs; eassumption | assumption].
  - rewrite lookup_insert_ne by congruence. apply Hs.
Qed.

Lemma store_op_consistent s s' :
  store_op s s' -> store_consistent s -> store_consistent s'.
Proof.
  destruct 1; [auto | apply create_consistent | apply update_consistent].
Qed.

Lemma reachable_consistent max_size max_retries sys sys' :
  rtc (step max_size max_retries) sys sys' ->
  store_consistent (store sys) -> store_consistent (store sys').
Proof.
  induction 1 as [| sys mid sys' Hstep _ IH]; [auto |].
  intros Hs. apply IH. eapply store_op_consistent; [| exact Hs].
  eapply step_store_op, Hstep.
Qed.

(** What [update] writes into the two optional fields. *)
Lemma update_fields (s : gmap string Document) doc_id m now d d' :
  s !! doc_id = Some d -> snd (update s doc_id m now) = inr d' ->
  status d = expected m
  /\ fst (update s doc_id m now) !! doc_id = Some d'
  /\ extracted_text d'
     = match m with
       | ExtractSucceeded text => Some text
       | _ => extracted_text d
       end
  /\ summary d'
     = match m with
       | SummarizeSucceeded text => Some text
       | _ => summary d
       end.
Proof.
  intros Hd. unfold update. rewrite Hd.
  destruct (decide (status d = expected m)) as [E |]; [| discriminate].
  cbn. intros [= <-]. split; [assumption |].
  split; [apply lookup_insert_eq |]. destruct m; auto.
Qed.

(** A document that a store operation brings into the store is fresh. *)
Lemma store_op_new s s' doc_id d' :
  store_op s s' -> s !! doc_id = None -> s' !! doc_id = Some d' ->
  status d' = UPLOADED /\ extracted_text d' = None.
Proof.
  intros Hop Hnone. destruct Hop as [| k filename ref now | k m now].
  - congruence.
  - unfold create. destruct (s !! k) eqn:Hk; cbn; [congruence |].
    destruct (decide (k = doc_id)) as [-> |].
    + rewrite lookup_insert_eq. intros [= <-]. auto.
    + rewrite lookup_insert_ne by assumption. congruence.
  - unfold update. destruct (s !! k) as [d |] eqn:Hk; cbn; [| congruence].
    destruct (decide (status d = expected m)); cbn; [| congruence].
    destruct (decide (k = doc_id)) as [-> |]; [congruence |].
    rewrite lookup_insert_ne by assumption. congruence.
Qed.

(** A document that was there is kept, or rewritten by one mutation whose
    pre-state it was in. *)
Lemma store_op_old s s' doc_id d d' :
  store_op s s' -> s !! doc_id = Some d -> s' !! doc_id = Some d' ->
  d' = d \/ exists m now, status d = expected m /\ d' = apply_mutation m now d.
Proof.
  intros Hop Hd. destruct Hop as [| k filename ref now | k m now].
  - left. congruence.
  - unfold create. destruct (s !! k) eqn:Hk; cbn; [left; congruence |].
    destruct (decide (k = doc_id)) as [-> |]; [congruence |].
    rewrite lookup_insert_ne by assumption. left. congruence.
  - unfold update. destruct (s !! k) as [d0 |] eqn:Hk; cbn; [| left; congruence].
    destruct (decide (status d0 = expected m)) as [E |]; cbn; [| left; congruence].
    destruct (decide (k = doc_id)) as [-> |].
    + rewrite lookup_insert_eq. intros [= <-]. right.
      assert (d0 = d) as -> by congruence. eauto.
    + rewrite lookup_insert_ne by assumption. left. congruence.
Qed.

Lemma was_text_ready_cons doc_id sys states :
  was_text_ready doc_id (sys :: states) <->
  (exists d, store sys !! doc_id = Some d /\ status d = TEXT_READY)
  \/ was_text_ready doc_id states.
Proof.
  unfold was_text_ready. split.
  - intros (s & d & Hin & Hd & Hs). apply elem_of_cons in Hin as [-> | Hin]; eauto 6.
  - intros [(d & Hd & Hs) | (s & d & Hin & Hd & Hs)].
    + exists sys, d. split; [apply elem_of_cons; auto | auto].
    + exists s, d. split; [apply elem_of_cons; auto | auto].
Qed.

Lemma history_invariant_step sys sys' past :
  history_invariant (sys :: past) ->
  store_op (store sys) (store sys') ->
  history_invariant (sys' :: sys :: past).
Proof.
  intros (Hcons & Htext & Hkept) Hop.
  assert (Hcons' : store_consistent (store sys'))
    by (eapply store_op_consistent; eassumption).
  split; [assumption | split].
  - intros doc_id d' Hd'. rewrite was_text_ready_cons.
    destruct (store sys !! doc_id) as [d |] eqn:Hd.
    + specialize (Htext doc_id d Hd).
      destruct (store_op_old _ _ _ _ _ Hop Hd Hd') as [-> | (m & now & E & ->)].
      * rewrite Htext. split; [auto |].
        intros [(d0 & Hd0 & Hs) | H]; [| assumption].
        apply Htext. apply Hcons in Hd as (_ & Hready & _).
        assert (d0 = d) as -> by congruence. auto.
      * destruct (Hcons doc_id d Hd) as (Hset & Hready & _).
        destruct m; cbn in E |- *.
        -- split; [| eauto]. intros _. left. eexists. split; [exact Hd' | reflexivity].
        -- split.
           ++ intros H. apply Hset in H. rewrite E in H.
              destruct H as [H | [H | H]]; discriminate H.
           ++ intros [(d0 & Hd0 & Hs) | H].
              ** rewrite Hd' in Hd0. injection Hd0 as <-. discriminate Hs.
              ** apply Htext in H. apply Hset in H. rewrite E in H.
                 destruct H as [H | [H | H]]; discriminate H.
        -- split; [| auto]. intros _. right. apply Htext. auto.
        -- split; [| auto]. intros _. right. apply Htext. auto.
    + destruct (store_op_new _ _ _ _ Hop Hd Hd') as [Hs Ht]. rewrite Ht.
      split; [intros [x Hx]; discriminate |].
      intros [(d0 & Hd0 & Hs0) | (s & d0 & Hin & Hd0 & _)].
      * rewrite Hd' in Hd0. injection Hd0 as <-. congruence.
      * destruct (Hkept s doc_id Hin) as [x Hx]; [eauto | congruence].
  - intros s doc_id Hin Hsome. apply elem_of_cons in Hin as [-> | Hin]; [assumption |].
    destruct (Hkept s doc_id Hin Hsome) as [d Hd].
    destruct (store_op_evolves _ _ Hop doc_id d Hd) as (d' & Hd' & _). eauto.
Qed.

Lemma execution_invariant max_size max_retries states :
  execution max_size max_retries states -> history_invariant states.
Proof.
  induction 1 as [| sys sys' past _ IH Hstep].
  - split; [| split].
    + intros k d Hk. cbn in Hk. rewrite lookup_empty in Hk. discriminate.
    + intros k d Hk. cbn in Hk. rewrite lookup_empty in Hk. discriminate.
    + intros s k Hin. apply list_elem_of_In in Hin. destruct Hin as [<- | []].
      cbn. rewrite lookup_empty. intros [x Hx]. discriminate.
  - apply history_invariant_step; [assumption |].
    eapply step_store_op, Hstep.
Qed.

(** C5.  In every execution of the system, each document has a [summary]
    exactly when its status is SUMMARY_READY, and has an [extracted_text]
    exactly when its status is TEXT_READY or SUMMARY_READY, or its status is
    ERROR and it was TEXT_READY before (the text was set before an ERROR
    that occurred downstream); so a document that failed at extraction has
    no text.  [create], [update] and every step of the system preserve the
    relation between fields and status, and [update] writes the text only
    on a successful extraction and the summary only on a successful
    summarization. *)
Theorem optional_fields_follow_history (max_size : Z) (max_retries : nat) :
  (forall sys past doc_id d,
     execution max_size max_retries (sys :: past) ->
     store sys !! doc_id = Some d ->
     (is_Some (extracted_text d) <->
      status d = TEXT_READY \/ status d = SUMMARY_READY
      \/ (status d = ERROR /\ was_text_ready doc_id past))
     /\ (is_Some (summary d) <-> status d = SUMMARY_READY))
  /\ (forall s doc_id filename ref now,
        store_consistent s ->
        store_consistent (fst (create s doc_id filename ref now)))
  /\ (forall s doc_id m now,
        store_consistent s -> store_consistent (fst (update s doc_id m now)))
  /\ (forall sys sys',
        step max_size max_retries sys sys' ->
        store_consistent (store sys) -> store_consistent (store sys'))
  /\ (forall s doc_id m now d d',
        s !! doc_id = Some d -> snd (update s doc_id m now) = inr d' ->
        extracted_text d'
        = match m with
          | ExtractSucceeded text => Some text
          | _ => extracted_text d
          end
        /\ summary d'
           = match m with
             | SummarizeSucceeded text => Some text
             | _ => summary d
             end).
Proof.
  split; [| split; [| split; [| split]]].
  - intros sys past doc_id d Hexec Hd.
    destruct (execution_invariant _ _ _ Hexec) as (Hcons & Htext & _).
    destruct (Hcons doc_id d Hd) as (Hset & Hready & Hsummary).
    split; [| assumption].
    rewrite (Htext doc_id d Hd), was_text_ready_cons. split.
    + intros [(d0 & Hd0 & Hs) | Hpast].
      * left. congruence.
      * assert (Hsome : is_Some (extracted_text d))
          by (apply (proj2 (Htext doc_id d Hd)), was_text_ready_cons; auto).
        destruct (Hset Hsome) as [H | [H | H]]; auto.
    + intros [H | [H | [H Hpast]]].
      * left. eauto.
      * apply was_text_ready_cons, (proj1 (Htext doc_id d Hd)). auto.
      * now right.
  - intros. now apply create_consistent.
  - intros. now apply update_consistent.
  - intros sys sys' Hstep. apply store_op_consistent.
    eapply step_store_op, Hstep.
  - intros s doc_id m now d d' Hd Hok.
    destruct (update_fields s doc_id m now d d' Hd Hok) as (_ & _ & H1 & H2). auto.
Qed.

Lemma optional_fields_follow_history_witness :
  is_Some (extracted_text (mkDocument "d1" "paper.pdf" ERROR None None (Some "timeout")
                                      101 "blob-1"))
  <-> status (mkDocument "d1" "paper.pdf" ERROR None None (Some "timeout") 101 "blob-1")
      = TEXT_READY
      \/ status (mkDocument "d1" "paper.pdf" ERROR None None (Some "timeout") 101 "blob-1")
         = SUMMARY_READY
      \/ (status (mkDocument "d1" "paper.pdf" ERROR None None (Some "timeout") 101 "blob-1")
          = ERROR
          /\ was_text_ready "d1"
               [fst (submit 5242880 initial "d1" "paper.pdf" "application/pdf" 10240
                            "blob-1" plain_text 100);
                initial]).
Proof.
  refine (proj1 (proj1 (optional_fields_follow_history 5242880 3)
            (extraction_worker 3
               (fst (submit 5242880 initial "d1" "paper.pdf" "application/pdf" 10240
                            "blob-1" plain_text 100))
               0 (mkJob "d1" EXTRACT plain_text 0) (PermanentFailure "timeout") 101)
            _ "d1" _ _ _)).
  - apply execution_step;
      [apply (execution_step 5242880 3 initial _ []); [apply execution_start |] |].
    + apply step_submit with (doc_id := "d1") (filename := "paper.pdf")
        (content_type := "application/pdf") (size := 10240%Z)
        (ref := "blob-1") (m := plain_text) (now := 100%Z).
    + apply step_extract. vm_compute. apply list_elem_of_In. simpl. auto.
  - vm_compute. reflexivity.
Defined.

(** *** Compare-and-set *)

Lemma update_conflict_iff (s : gmap string Document) doc_id m now :
  snd (update s doc_id m now) = inl Conflict <->
  exists d, s !! doc_id = Some d /\ status d <> expected m.
Proof.
  unfold update. destruct (s !! doc_id) as [d |] eqn:Hd.
  - destruct (decide (status d = expected m)) as [E | N]; cbn.
    + split; [discriminate |]. intros (d0 & [= <-] & N). contradiction.
    + split; [| reflexivity]. intros _. exists d. auto.
  - cbn. split; [discriminate |]. intros (d0 & H & _). discriminate.
Qed.

Lemma update_failure_keeps_store (s : gmap string Document) doc_id m now e :
  snd (update s doc_id m now) = inl e -> fst (update s doc_id m now) = s.
Proof.
  unfold update. destruct (s !! doc_id) as [d |]; [| reflexivity].
  destruct (decide (status d = expected m)); [discriminate | reflexivity].
Qed.

(** Two updates with the same expected pre-state, run one after the other
    on a document that is in that state: the first wins, the second gets
    [Conflict] and changes nothing. *)
Lemma update_race_in_order (s : gmap string Document) doc_id d first second t1 t2 :
  s !! doc_id = Some d ->
  status d = expected first -> expected second = expected first ->
  let s1 := fst (update s doc_id first t1) in
  snd (update s doc_id first t1) = inr (apply_mutation first t1 d)
  /\ update s1 doc_id second t2 = (s1, inl Conflict)
  /\ s1 !! doc_id = Some (apply_mutation first t1 d).
Proof.
  intros Hd E1 E2 s1. subst s1.
  rewrite (update_success _ _ _ _ _ Hd E1). cbn.
  split; [reflexivity |]. split; [| apply lookup_insert_eq].
  apply update_conflict with (d := apply_mutation first t1 d).
  - apply lookup_insert_eq.
  - now apply apply_mutation_leaves_expected.
Qed.

(** C6.  [update] fails with [Conflict] exactly when the document exists
    and its stored status differs from the expected pre-state; a failed
    [update] leaves the store as it was; and of two updates with the same
    expected pre-state on a document that is in that state, whichever runs
    first succeeds and the other fails with [Conflict], leaving the record
    as the winner wrote it. *)
Theorem update_is_compare_and_set
    (s : gmap string Document) (doc_id : string) (m : Mutation) (now : Z) :
  (snd (update s doc_id m now) = inl Conflict <->
   exists d, s !! doc_id = Some d /\ status d <> expected m)
  /\ (forall e, snd (update s doc_id m now) = inl e ->
        fst (update s doc_id m now) = s)
  /\ (forall d m' now',
        s !! doc_id = Some d ->
        status d = expected m -> expected m' = expected m ->
        (snd (update s doc_id m now) = inr (apply_mutation m now d)
         /\ update (fst (update s doc_id m now)) doc_id m' now'
            = (fst (update s doc_id m now), inl Conflict))
        /\ (snd (update s doc_id m' now') = inr (apply_mutation m' now' d)
            /\ update (fst (update s doc_id m' now')) doc_id m now
               = (fst (update s doc_id m' now'), inl Conflict))).
Proof.
  split; [apply update_conflict_iff | split].
  - intros e. apply update_failure_keeps_store.
  - intros d m' now' Hd E1 E2. split.
    + destruct (update_race_in_order s doc_id d m m' now now' Hd E1 E2)
        as (H1 & H2 & _). auto.
    + assert (E1' : status d = expected m') by congruence.
      destruct (update_race_in_order s doc_id d m' m now' now Hd E1' (eq_sym E2))
        as (H1 & H2 & _). auto.
Qed.

Lemma update_is_compare_and_set_witness :
  (snd (update {["d1" := mkDocument "d1" "paper.pdf" UPLOADED None None None 100 "blob-1"]}
               "d1" (ExtractSucceeded "some text") 101)
   = inr (apply_mutation (ExtractSucceeded "some text") 101
            (mkDocument "d1" "paper.pdf" UPLOADED None None None 100 "blob-1"))
   /\ update
        (fst (update {["d1" := mkDocument "d1" "paper.pdf" UPLOADED None None None 100 "blob-1"]}
                     "d1" (ExtractSucceeded "some text") 101))
        "d1" (ExtractFailed "timeout") 102
      = (fst (update {["d1" := mkDocument "d1" "paper.pdf" UPLOADED None None None 100 "blob-1"]}
                     "d1" (ExtractSucceeded "some text") 101),
         inl Conflict))
  /\ (snd (update {["d1" := mkDocument "d1" "paper.pdf" UPLOADED None None None 100 "blob-1"]}
                  "d1" (ExtractFailed "timeout") 102)
      = inr (apply_mutation (ExtractFailed "timeout") 102
               (mkDocument "d1" "paper.pdf" UPLOADED None None None 100 "blob-1"))
      /\ update
           (fst (update {["d1" := mkDocument "d1" "paper.pdf" UPLOADED None None None 100 "blob-1"]}
                        "d1" (ExtractFailed "timeout") 102))
           "d1" (ExtractSucceeded "some text") 101
         = (fst (update {["d1" := mkDocument "d1" "paper.pdf" UPLOADED None None None 100 "blob-1"]}
                        "d1" (ExtractFailed "timeout") 102),
            inl Conflict)).
Proof.
  apply (proj2 (proj2 (update_is_compare_and_set
           {["d1" := mkDocument "d1" "paper.pdf" UPLOADED None None None 100 "blob-1"]}
           "d1" (ExtractSucceeded "some text") 101))).
  - apply lookup_singleton_eq.
  - reflexivity.
  - reflexivity.
Defined.

(** *** The scenarios of the specification, run on the model *)

(** Three transient failures with a retry budget of three end in ERROR with
    the detail recorded, and no SUMMARIZE job is ever enqueued. *)
Example three_transient_failures_end_in_error :
  let sys0 := fst (submit 5242880 initial "d1" "paper.pdf" "application/pdf" 10240
                          "blob-1" plain_text 100) in
  let job := mkJob "d1" EXTRACT plain_text in
  let sys1 := extraction_worker 3 sys0 0 (job 0) (TransientFailure "timeout") 101 in
  let sys2 := extraction_worker 3 sys1 0 (job 1) (TransientFailure "timeout") 102 in
  let sys3 := extraction_worker 3 sys2 0 (job 2) (TransientFailure "timeout") 103 in
  pending (extract_queue sys2) = [(0, job 2)]
  /\ status <$> (store sys2 !! "d1") = Some UPLOADED
  /\ store sys3 !! "d1"
     = Some (mkDocument "d1" "paper.pdf" ERROR None None (Some "timeout") 103 "blob-1")
  /\ pending (extract_queue sys3) = []
  /\ pending (summarize_queue sys3) = [].
Proof. vm_compute. repeat split. Qed.

(** A redelivered EXTRACT job for a document that has already advanced is
    acknowledged and changes nothing else. *)
Example redelivered_job_is_skipped :
  let sys0 := fst (submit 5242880 initial "d1" "paper.pdf" "application/pdf" 10240
                          "blob-1" markdown 100) in
  let job := mkJob "d1" EXTRACT markdown 0 in
  let sys1 := extraction_worker 3 sys0 0 job (Succeeded "some text") 101 in
  let sys2 := extraction_worker 3 sys1 0 job (Succeeded "other text") 102 in
  sys2 = sys1
  /\ pending (summarize_queue sys1) = [(0, mkJob "d1" SUMMARIZE markdown 0)].
Proof. vm_compute. repeat split. Qed.

End PipelineSpec.

(* ===================================================================== *)
(** ** Further properties of the page *)
(* ===================================================================== *)

Module FrontendMore.
Import JS Frontend Rendering.

(** *** The handlers, cell by cell *)

Lemma fetchSummaries_effects env silent reply h :
  snd (fetchSummaries env silent reply h) = [GET (apiUrl env ++ "/summaries")].
Proof. reflexivity. Qed.

Lemma fetchSummaries_frame env silent reply h :
  let h' := fst (fetchSummaries env silent reply h) in
  uploading h' = uploading h /\ uploadError h' = uploadError h
  /\ uploadSuccess h' = uploadSuccess h /\ isDragging h' = isDragging h
  /\ extractionMode h' = extractionMode h.
Proof. destruct reply, silent; repeat split. Qed.

Lemma fetchSummaries_error env silent reply h :
  is_Some (error h) -> is_Some (error (fst (fetchSummaries env silent reply h))).
Proof. intros H. destruct reply, silent; cbn; eauto. Qed.

Lemma fetchSummaries_loading env silent reply h :
  loading (fst (fetchSummaries env silent reply h))
  = if silent then loading h else false.
Proof. destruct reply, silent; reflexivity. Qed.

Lemma fetchSummaries_ok env silent data h :
  summaries (fst (fetchSummaries env silent (SummariesOk data) h))
  = default [] (SummariesResponse.summaries data)
  /\ error (fst (fetchSummaries env silent (SummariesOk data) h)) = error h.
Proof. destruct silent; split; reflexivity. Qed.

Lemma fetchSummaries_failed env silent reply h :
  (forall data, reply <> SummariesOk data) ->
  summaries (fst (fetchSummaries env silent reply h)) = summaries h.
Proof.
  intros Hfail. destruct reply as [| | | data], silent; try reflexivity;
    now destruct (Hfail data).
Qed.

Lemma valid_dec (f : File.t) :
  valid f \/ isInvalidFileType f || isTooLarge f = true.
Proof.
  unfold valid. destruct (isInvalidFileType f), (isTooLarge f); cbn; auto.
Qed.

Lemma upload_refused env f up li h :
  isInvalidFileType f || isTooLarge f = true ->
  exists msg,
    handleFileUpload env f up li h = (setUploadError (Some msg) h, [])
    /\ truthy msg = true.
Proof.
  intros H. unfold handleFileUpload.
  destruct (isInvalidFileType f); [eexists; split; reflexivity |].
  destruct (isTooLarge f); [eexists; split; reflexivity | discriminate].
Qed.

Lemma upload_ok env f li h :
  valid f ->
  handleFileUpload env f UploadOk li h
  = (setUploading false
       (fst (fetchSummaries env false li (setUploadSuccess true (started h)))),
     [postOf env f h; GET (apiUrl env ++ "/summaries"); SetTimeout 3000]).
Proof.
  intros [E1 E2]. unfold handleFileUpload. rewrite E1, E2. reflexivity.
Qed.

Lemma upload_failed env f up li h :
  valid f -> up <> UploadOk ->
  exists msg,
    handleFileUpload env f up li h
    = (setUploading false (setUploadError (Some msg) (started h)), [postOf env f h])
    /\ msg = match up with
             | UploadRejected err | UploadBadJson err =>
                 message_or err "An error occurred during upload"
             | UploadNotOk (Some detail) => or_else detail "Failed to upload PDF"
             | UploadNotOk None => "Upload failed"
             | UploadOk => ""
             end.
Proof.
  intros [E1 E2] Hup. unfold handleFileUpload. rewrite E1, E2.
  destruct up as [err | [detail |] | err |]; try (eexists; split; reflexivity).
  now destruct Hup.
Qed.

Lemma handleFileUpload_frame env f up li h :
  let h' := fst (handleFileUpload env f up li h) in
  isDragging h' = isDragging h /\ extractionMode h' = extractionMode h
  /\ (is_Some (error h) -> is_Some (error h'))
  /\ (loading h = false -> loading h' = false).
Proof.
  destruct (valid_dec f) as [Hv | Hr].
  - destruct up as [err | ed | err |].
    4: { rewrite (upload_ok _ _ _ _ Hv). cbn [fst].
         pose proof (fetchSummaries_frame env false li
                       (setUploadSuccess true (started h))) as (_ & _ & _ & Hd & Hm).
         pose proof (fetchSummaries_error env false li
                       (setUploadSuccess true (started h))) as He.
         pose proof (fetchSummaries_loading env false li
                       (setUploadSuccess true (started h))) as Hl.
         cbn in *. repeat split; auto. }
    all: match goal with
         | |- context [handleFileUpload _ _ ?u _ _] =>
             destruct (upload_failed env f u li h Hv) as (msg & -> & _);
               [discriminate |]
         end; cbn; repeat split; auto.
  - destruct (upload_refused env f up li h Hr) as (msg & -> & _).
    cbn. repeat split; auto.
Qed.

(** *** Events *)

Lemma step_handle env p e p' effects :
  step env p e = Some (p', effects) ->
  p' = render (fst (handle env e (home p)))
  /\ effects = snd (handle env e (home p))
  /\ (forall reply, e = PollTick reply -> pollInterval p <> None).
Proof.
  destruct e; cbn; try (intros [= <- <-]; repeat split; discriminate).
  destruct (pollInterval p); [| discriminate].
  intros [= <- <-]. repeat split. discriminate.
Qed.

Lemma handleFileSelect_cases env file up li h :
  handleFileSelect env file up li h = (h, [])
  \/ exists f, file = Some f
       /\ handleFileSelect env file up li h = handleFileUpload env f up li h.
Proof. destruct file as [f |]; [right; eauto | now left]. Qed.

Lemma handle_error env e h :
  is_Some (error h) -> is_Some (error (fst (handle env e h))).
Proof.
  intros H. destruct e; cbn [handle]; try (cbn; assumption).
  - now apply fetchSummaries_error.
  - now apply fetchSummaries_error.
  - destruct file as [f |]; cbn; [| assumption].
    now apply handleFileUpload_frame.
  - destruct file as [f |]; cbn -[handleFileUpload]; [| assumption].
    now apply (handleFileUpload_frame env f upload listing (setIsDragging false h)).
Qed.

Lemma handle_loading env e h :
  loading h = false -> loading (fst (handle env e h)) = false.
Proof.
  intros H. destruct e; cbn [handle]; try (cbn; assumption).
  - now rewrite fetchSummaries_loading.
  - now rewrite fetchSummaries_loading.
  - destruct file as [f |]; cbn; [| assumption].
    now apply handleFileUpload_frame.
  - destruct file as [f |]; cbn -[handleFileUpload]; [| assumption].
    now apply (handleFileUpload_frame env f upload listing (setIsDragging false h)).
Qed.

(** X1.  No event resets [error]: once a fetch has failed, [error] stays
    set along every run, and a later successful fetch keeps it as it was,
    so that with a non-empty message neither the cards nor the empty state
    are rendered although the list was stored. *)
Theorem error_is_never_cleared env (p p' : Page) :
  run env p p' ->
  is_Some (error (home p)) ->
  is_Some (error (home p'))
  /\ (forall silent data,
        truthyOpt (error (home p')) = true ->
        let h' := fst (fetchSummaries env silent (SummariesOk data) (home p')) in
        summaries h' = default [] (SummariesResponse.summaries data)
        /\ error h' = error (home p')
        /\ cards (view h') = None /\ emptyState (view h') = false).
Proof.
  intros Hrun Herr.
  assert (H : is_Some (error (home p'))).
  { induction Hrun as [| p q r (e & fx & Hstep) _ IH]; [assumption |].
    apply IH. apply step_handle in Hstep as (-> & _ & _). cbn [home render].
    now apply handle_error. }
  split; [assumption |].
  intros silent data Ht h'. subst h'.
  destruct (fetchSummaries_ok env silent data (home p')) as [Hs He].
  split; [assumption | split; [assumption |]].
  unfold view; cbn [cards emptyState]. rewrite He, Ht.
  rewrite andb_false_r. cbn. split; reflexivity.
Qed.

Lemma error_is_never_cleared_witness :
  is_Some (error (home (render (fst (fetchSummaries None false
     (SummariesOk (SummariesResponse.mk
        (Some [Summary.mk "f1" "paper.pdf" "UPLOADED" "" "" "2025-01-01"]) 1))
     (fst (fetchSummaries None false SummariesNotOk initialHome))))))).
Proof.
  refine (proj1 (error_is_never_cleared None
            (render (fst (fetchSummaries None false SummariesNotOk initialHome)))
            _ _ _)).
  - eapply rtc_l; [| apply rtc_refl].
    exists (Mount (SummariesOk (SummariesResponse.mk
              (Some [Summary.mk "f1" "paper.pdf" "UPLOADED" "" "" "2025-01-01"]) 1))).
    eexists. reflexivity.
  - cbn. eauto.
Defined.

(** X2.  [loading] is only ever set to false: along every run, once it is
    false it stays false, and it is false after every mount fetch, whatever
    the reply. *)
Theorem loading_never_returns env (p p' : Page) :
  run env p p' ->
  (loading (home p) = false -> loading (home p') = false)
  /\ (forall reply q effects,
        step env p' (Mount reply) = Some (q, effects) -> loading (home q) = false).
Proof.
  intros Hrun. split.
  - induction Hrun as [| p q r (e & fx & Hstep) _ IH]; [auto |].
    intros H. apply IH. apply step_handle in Hstep as (-> & _ & _).
    cbn [home render]. now apply handle_loading.
  - intros reply q effects Hstep. apply step_handle in Hstep as (-> & _ & _).
    cbn [home render handle]. now rewrite fetchSummaries_loading.
Qed.

Lemma loading_never_returns_witness :
  loading (home (render (fst (fetchSummaries None true SummariesNotOk
     (fst (fetchSummaries None false
        (SummariesOk (SummariesResponse.mk
           (Some [Summary.mk "f1" "paper.pdf" "UPLOADED" "" "" "2025-01-01"]) 1))
        initialHome)))))) = false.
Proof.
  refine (proj1 (loading_never_returns None
            (render (fst (fetchSummaries None false
               (SummariesOk (SummariesResponse.mk
                  (Some [Summary.mk "f1" "paper.pdf" "UPLOADED" "" "" "2025-01-01"]) 1))
               initialHome)))
            _ _) _).
  - eapply rtc_l; [| apply rtc_refl].
    exists (PollTick SummariesNotOk). eexists. reflexivity.
  - reflexivity.
Defined.

Lemma handle_summaries env e h :
  match listReply e with
  | Some (SummariesOk data) =>
      summaries (fst (handle env e h)) = default [] (SummariesResponse.summaries data)
      /\ error (fst (handle env e h)) = error h
  | Some _ => summaries (fst (handle env e h)) = summaries h
  | None =>
      summaries (fst (handle env e h)) = summaries h
      /\ error (fst (handle env e h)) = error h
      /\ loading (fst (handle env e h)) = loading h
  end.
Proof.
  assert (Hup : forall f up li h0,
    match (match up with
           | UploadOk => if isInvalidFileType f || isTooLarge f then None else Some li
           | _ => None
           end) with
    | Some (SummariesOk data) =>
        summaries (fst (handleFileUpload env f up li h0))
        = default [] (SummariesResponse.summaries data)
        /\ error (fst (handleFileUpload env f up li h0)) = error h0
    | Some _ => summaries (fst (handleFileUpload env f up li h0)) = summaries h0
    | None =>
        summaries (fst (handleFileUpload env f up li h0)) = summaries h0
        /\ error (fst (handleFileUpload env f up li h0)) = error h0
        /\ loading (fst (handleFileUpload env f up li h0)) = loading h0
    end).
  { intros f up li h0. destruct (valid_dec f) as [Hv | Hr].
    - destruct Hv as [E1 E2]. rewrite E1, E2. cbn [orb].
      destruct up as [err | ed | err |].
      4: { rewrite (upload_ok env f li h0 (conj E1 E2)). cbn [fst].
           destruct li as [err | | err | data]; cbn; auto. }
      all: match goal with
           | |- context [handleFileUpload _ _ ?u _ _] =>
               destruct (upload_failed env f u li h0 (conj E1 E2)) as (msg & -> & _);
                 [discriminate |]
           end; cbn; auto.
    - rewrite Hr. destruct (upload_refused env f up li h0 Hr) as (msg & -> & _).
      destruct up; cbn; auto. }
  destruct e as [reply | reply | file up li | file up li | | | value |];
    cbn [listReply handle]; try (cbn; auto; fail).
  - destruct reply; cbn; auto.
  - destruct reply; cbn; auto.
  - destruct file as [f |]; [| destruct up; cbn; auto].
    specialize (Hup f up li h). cbn [handleFileSelect].
    destruct up; exact Hup.
  - destruct file as [f |]; [| destruct up; cbn; auto].
    specialize (Hup f up li (setIsDragging false h)).
    cbn [handleDrop handleFileSelect]. destruct up; exact Hup.
Qed.

(** X3.  The spinner shows only before any list has been fetched: on every
    reachable page on which [loading] is still true, the list is empty, no
    error is set, no polling interval exists and the view shows neither
    cards nor the empty state. *)
Theorem spinner_means_nothing_loaded env (p : Page) :
  reachable env p ->
  loading (home p) = true ->
  summaries (home p) = [] /\ error (home p) = None
  /\ pollInterval p = None
  /\ (forall reply, step env p (PollTick reply) = None)
  /\ cards (view (home p)) = None /\ emptyState (view (home p)) = false.
Proof.
  intros Hreach Hload.
  assert (Hinv : summaries (home p) = [] /\ error (home p) = None).
  { revert Hload.
    induction Hreach as [| p e p' effects Hreach IH Hstep]; [auto |].
    pose proof (FrontendSpec.reachable_pollInterval env p Hreach) as Hint.
    apply step_handle in Hstep as (-> & _ & Hpoll). cbn [home render].
    intros Hload.
    pose proof (handle_summaries env e (home p)) as Hs.
    destruct (listReply e) as [reply |] eqn:Hr.
    - (* the event fetched the list: only a silent fetch keeps [loading] *)
      destruct e as [r | r | file up li | file up li | | | value |];
        cbn [listReply] in Hr; [| | | | discriminate Hr ..].
      + cbn [handle] in Hload. rewrite fetchSummaries_loading in Hload.
        simpl in Hload. discriminate Hload.
      + cbn [handle] in Hload. rewrite fetchSummaries_loading in Hload.
        simpl in Hload.
        destruct (IH Hload) as [Hnil _].
        exfalso. apply (Hpoll r eq_refl). now rewrite Hint, Hnil.
      + destruct file as [f |]; [| discriminate Hr].
        destruct up; [discriminate Hr .. |].
        destruct (valid_dec f) as [Hv | Hx]; [| now rewrite Hx in Hr].
        cbn [handle handleFileSelect] in Hload. rewrite (upload_ok _ _ _ _ Hv) in Hload.
        cbn [fst] in Hload.
        pose proof (fetchSummaries_loading env false li
                      (setUploadSuccess true (started (home p)))) as Hl.
        cbn in Hload, Hl. congruence.
      + destruct file as [f |]; [| discriminate Hr].
        destruct up; [discriminate Hr .. |].
        destruct (valid_dec f) as [Hv | Hx]; [| now rewrite Hx in Hr].
        cbn [handle handleDrop handleFileSelect] in Hload.
        rewrite (upload_ok _ _ _ _ Hv) in Hload. cbn [fst] in Hload.
        pose proof (fetchSummaries_loading env false li
                      (setUploadSuccess true (started (setIsDragging false (home p)))))
          as Hl.
        cbn in Hload, Hl. congruence.
    - destruct Hs as (Hs & He & Hl). rewrite Hs, He. apply IH. congruence. }
  destruct Hinv as [Hnil Herr].
  pose proof (FrontendSpec.reachable_pollInterval env p Hreach) as Hint.
  rewrite Hnil in Hint. cbn in Hint.
  repeat split; try assumption.
  - intros reply. cbn [step]. now rewrite Hint.
  - unfold view; cbn [cards]. now rewrite Hload.
  - unfold view; cbn [emptyState]. now rewrite Hload.
Qed.

Lemma spinner_means_nothing_loaded_witness :
  summaries (home initialPage) = [] /\ error (home initialPage) = None
  /\ pollInterval initialPage = None
  /\ (forall reply, step None initialPage (PollTick reply) = None)
  /\ cards (view (home initialPage)) = None
  /\ emptyState (view (home initialPage)) = false.
Proof.
  apply (spinner_means_nothing_loaded None initialPage).
  - apply reachable_initial.
  - reflexivity.
Defined.

(** X4.  The list cells follow the list reply of an event.  An event that
    sends no list request leaves [summaries], [error], [loading] and the
    polling interval as they were; one whose list request fails keeps the
    list that is displayed; one whose list request succeeds replaces the
    list by the response's and keeps [error]. *)
Theorem list_state_follows_list_reply env (p : Page) e (p' : Page) effects :
  step env p e = Some (p', effects) ->
  match listReply e with
  | Some (SummariesOk data) =>
      summaries (home p') = default [] (SummariesResponse.summaries data)
      /\ error (home p') = error (home p)
  | Some _ =>
      summaries (home p') = summaries (home p)
      /\ pollInterval p' = pollEffect (summaries (home p))
  | None =>
      summaries (home p') = summaries (home p)
      /\ error (home p') = error (home p)
      /\ loading (home p') = loading (home p)
      /\ pollInterval p' = pollEffect (summaries (home p))
  end.
Proof.
  intros Hstep. apply step_handle in Hstep as (-> & _ & _).
  pose proof (handle_summaries env e (home p)) as Hs.
  cbn [home render pollInterval].
  destruct (listReply e) as [[err | | err | data] |]; try assumption.
  - now rewrite Hs.
  - now rewrite Hs.
  - now rewrite Hs.
  - destruct Hs as (Hs & He & Hl). now rewrite Hs.
Qed.

Lemma list_state_follows_list_reply_witness :
  summaries (home (render (fst (handle None
     (OnFileSelect (Some (File.mk "paper.pdf" "application/pdf" 2048)) UploadOk
        (SummariesOk (SummariesResponse.mk
           (Some [Summary.mk "f1" "paper.pdf" "UPLOADED" "" "" "2025-01-01"]) 1)))
     initialHome))))
  = [Summary.mk "f1" "paper.pdf" "UPLOADED" "" "" "2025-01-01"]
  /\ error (home (render (fst (handle None
       (OnFileSelect (Some (File.mk "paper.pdf" "application/pdf" 2048)) UploadOk
          (SummariesOk (SummariesResponse.mk
             (Some [Summary.mk "f1" "paper.pdf" "UPLOADED" "" "" "2025-01-01"]) 1)))
       initialHome))))
     = error (home initialPage).
Proof.
  apply (list_state_follows_list_reply None initialPage
           (OnFileSelect (Some (File.mk "paper.pdf" "application/pdf" 2048)) UploadOk
              (SummariesOk (SummariesResponse.mk
                 (Some [Summary.mk "f1" "paper.pdf" "UPLOADED" "" "" "2025-01-01"]) 1)))
           _ (snd (handle None
              (OnFileSelect (Some (File.mk "paper.pdf" "application/pdf" 2048)) UploadOk
                 (SummariesOk (SummariesResponse.mk
                    (Some [Summary.mk "f1" "paper.pdf" "UPLOADED" "" "" "2025-01-01"]) 1)))
              initialHome))).
  reflexivity.
Defined.

(** *** Uploads *)

Lemma or_else_truthy x d : truthy d = true -> truthy (or_else x d) = true.
Proof. intros H. destruct x as [[| c s] |]; cbn; auto. Qed.

Lemma uploadAtOnce_eq env (f : File.t) up li (h : Home) :
  handleFileUpload env f up li h = Async.uploadAtOnce env f up li h.
Proof.
  unfold handleFileUpload, Async.uploadAtOnce, Async.uploadBegin.
  destruct (isInvalidFileType f); [reflexivity |].
  destruct (isTooLarge f); [reflexivity |].
  destruct up as [err | [d |] | err |]; reflexivity.
Qed.

Lemma handle_uploading env e h :
  match e with
  | OnFileSelect (Some _) _ _ | OnDrop (Some _) _ _ => True
  | _ => uploading (fst (handle env e h)) = uploading h
  end.
Proof.
  destruct e as [reply | reply | [f |] up li | [f |] up li | | | value |];
    cbn [handle]; try exact I; try reflexivity.
  - apply (fetchSummaries_frame env false reply h).
  - apply (fetchSummaries_frame env true reply h).
Qed.

Lemma async_uploading_inflight env (p : Async.Page) :
  Async.reachable env p ->
  uploading (Async.cells p) = true -> Async.inflight p <> [].
Proof.
  induction 1 as [| p e p' effects _ IH Hstep]; [discriminate |].
  destruct e as [f dropped | i up | i li | e0]; cbn [Async.step] in Hstep.
  - unfold Async.uploadBegin in Hstep.
    destruct (isInvalidFileType f);
      [injection Hstep as <- _; cbn; destruct dropped; exact IH |].
    destruct (isTooLarge f);
      [injection Hstep as <- _; cbn; destruct dropped; exact IH |].
    injection Hstep as <- _. cbn. intros _ E. now apply app_eq_nil in E as [_ E].
  - destruct (Async.inflight p !! i) as [[] |] eqn:Hi; try discriminate.
    destruct up as [err | ed | err |]; cbn in Hstep; injection Hstep as <- _; cbn;
      try discriminate.
    intros _ E. apply (f_equal List.length) in E. rewrite length_insert in E.
    apply lookup_lt_Some in Hi. cbn in E. lia.
  - destruct (Async.inflight p !! i) as [[] |] eqn:Hi; try discriminate.
    injection Hstep as <- _. cbn. discriminate.
  - pose proof (handle_uploading env e0 (Async.cells p)) as Hu.
    destruct e0 as [reply | reply | [f |] up li | [f |] up li | | | value |];
      try discriminate;
      try (injection Hstep as <- _; intros Hup; apply IH; rewrite <- Hu; exact Hup).
    destruct (hasInProgressSummaries _); [| discriminate].
    injection Hstep as <- _. intros Hup. apply IH. rewrite <- Hu. exact Hup.
Qed.

(** X5.  [handleFileUpload] writes in three parts, separated by its
    awaits, and run without interruption the three parts are the handler.
    When the POST has settled without success, that part sets an upload
    error, clears [uploading], sends nothing and leaves [summaries],
    [error], [loading] and [uploadSuccess] alone; when it has settled with
    success, it sets [uploadSuccess] and sends the GET of the list.  The
    last part stores the list reply as [fetchSummaries] does, clears
    [uploading] and [loading] and arms the 3000 ms timer.  However uploads
    overlap, [uploading] is true only while some upload is in flight. *)
Theorem upload_in_three_parts env (f : File.t) up li (h : Home) :
  handleFileUpload env f up li h = Async.uploadAtOnce env f up li h
  /\ (up <> UploadOk ->
      exists msg,
        Async.uploadSettled env up h
        = (setUploading false (setUploadError (Some msg) h), [], false))
  /\ Async.uploadSettled env UploadOk h
     = (setUploadSuccess true h, [GET (apiUrl env ++ "/summaries")], true)
  /\ (uploading (fst (Async.uploadListed env li h)) = false
      /\ loading (fst (Async.uploadListed env li h)) = false
      /\ uploadSuccess (fst (Async.uploadListed env li h)) = uploadSuccess h
      /\ uploadError (fst (Async.uploadListed env li h)) = uploadError h
      /\ summaries (fst (Async.uploadListed env li h))
         = summaries (fst (fetchSummaries env false li h))
      /\ snd (Async.uploadListed env li h) = [SetTimeout 3000])
  /\ (forall p, Async.reachable env p ->
        uploading (Async.cells p) = true -> Async.inflight p <> []).
Proof.
  split; [apply uploadAtOnce_eq | split; [| split; [reflexivity | split]]].
  - intros Hup. destruct up as [err | ed | err |];
      [eexists; reflexivity .. | now destruct Hup].
  - pose proof (fetchSummaries_frame env false li h) as (_ & He & Hs & _).
    pose proof (fetchSummaries_loading env false li h) as Hl.
    cbn in *. repeat split; assumption.
  - apply async_uploading_inflight.
Qed.

Lemma upload_in_three_parts_witness :
  Async.inflight
    (Async.mkPage (started initialHome) [Async.AwaitingPost]) <> [].
Proof.
  refine (proj2 (proj2 (proj2 (proj2 (upload_in_three_parts None
            (File.mk "paper.pdf" "application/pdf" 2048) UploadOk SummariesNotOk
            initialHome))))
            (Async.mkPage (started initialHome) [Async.AwaitingPost]) _ _).
  - eapply Async.reachable_step with (p := Async.initialPage)
      (e := Async.Begin (File.mk "paper.pdf" "application/pdf" 2048) false).
    + apply Async.reachable_initial.
    + reflexivity.
  - reflexivity.
Defined.

(** Two uploads that overlap: the first is accepted while the second is
    still in flight and then fails.  The page ends with the success flag
    and an upload error both set; and after the first one finished,
    [uploading] was false although the second was still in flight. *)
Example overlapping_uploads :
  let f := File.mk "paper.pdf" "application/pdf" 2048 in
  let run p e := match Async.step None p e with
                 | Some (p', _) => p'
                 | None => p
                 end in
  let p1 := run Async.initialPage (Async.Begin f true) in
  let p2 := run p1 (Async.Begin f true) in
  let p3 := run p2 (Async.Settle 0 UploadOk) in
  let p4 := run p3 (Async.Listed 0 SummariesNotOk) in
  let p5 := run p4 (Async.Settle 0 (UploadNotOk None)) in
  (uploading (Async.cells p4) = false /\ Async.inflight p4 = [Async.AwaitingPost])
  /\ uploadSuccess (Async.cells p5) = true
  /\ uploadError (Async.cells p5) = Some "Upload failed"
  /\ Async.inflight p5 = [].
Proof. vm_compute. repeat split. Qed.

Lemma shown_truthy (msg : string) : msg <> "" -> shown (Some msg) = Some msg.
Proof.
  intros H. unfold shown, truthyOpt, Rendering.truthy.
  destruct (String.eqb_spec msg ""); [contradiction | reflexivity].
Qed.

(** X6.  Why an upload was refused.  When validation fails, the upload
    error panel is rendered with a non-empty message.  For a response that
    is not ok the stored message is: 'Upload failed' when the body does not
    parse; 'Failed to upload PDF' when the body has no [detail] or a falsy
    one; the [detail] itself when it is a non-empty string; [String(detail)]
    for any other truthy [detail]; and the engine's TypeError text when the
    body is [null].  In the first three cases the message is non-empty, so
    the panel is rendered; in general it is rendered exactly when the
    message is non-empty.  On a [detail] that is a string or absent this is
    what the handler's second part stores. *)
Theorem refused_upload_message env text stringify (f : File.t) up li (h : Home) :
  (isInvalidFileType f || isTooLarge f = true ->
   exists msg,
     uploadErrorPanel (view (fst (handleFileUpload env f up li h))) = Some msg
     /\ msg <> "")
  /\ Runtime.uploadFailureText text stringify Runtime.BodyRejected = "Upload failed"
  /\ Runtime.uploadFailureText text stringify (Runtime.BodyParsed JNull) = text
  /\ (forall v, v <> JNull ->
        (prop "detail" v = None
         \/ exists d, prop "detail" v = Some d /\ Runtime.truthy d = false) ->
        Runtime.uploadFailureText text stringify (Runtime.BodyParsed v)
        = "Failed to upload PDF")
  /\ (forall v s, v <> JNull -> prop "detail" v = Some (JString s) -> s <> "" ->
        Runtime.uploadFailureText text stringify (Runtime.BodyParsed v) = s)
  /\ (forall v d, v <> JNull -> prop "detail" v = Some d -> Runtime.truthy d = true ->
        (forall s, d <> JString s) ->
        Runtime.uploadFailureText text stringify (Runtime.BodyParsed v) = stringify d)
  /\ (forall body,
        (Runtime.uploadFailureText text stringify body <> "" ->
         shown (Some (Runtime.uploadFailureText text stringify body))
         = Some (Runtime.uploadFailureText text stringify body))
        /\ (Runtime.uploadFailureText text stringify body = "" ->
            shown (Some (Runtime.uploadFailureText text stringify body)) = None))
  /\ (forall errorData,
        uploadError (fst (fst (Async.uploadSettled env (UploadNotOk errorData) h)))
        = Some (Runtime.uploadFailureText text stringify (Runtime.errorBodyOf errorData))).
Proof.
  split; [| split; [reflexivity | split; [reflexivity |
    split; [| split; [| split; [| split]]]]]].
  - intros Hr. destruct (upload_refused env f up li h Hr) as (msg & -> & Ht).
    exists msg. cbn. split.
    + apply shown_truthy. intros ->. discriminate Ht.
    + intros ->. discriminate Ht.
  - intros v Hnull Hd. unfold Runtime.uploadFailureText, Runtime.uploadFailure.
    destruct v; try (now destruct Hnull);
      destruct Hd as [-> | (d & -> & ->)]; reflexivity.
  - intros v s Hnull Hd Hs. unfold Runtime.uploadFailureText, Runtime.uploadFailure.
    assert (Ht : Runtime.truthy (JString s) = true).
    { cbn. destruct (String.eqb_spec s ""); [contradiction | reflexivity]. }
    destruct v; try (now destruct Hnull); rewrite Hd, Ht; reflexivity.
  - intros v d Hnull Hd Ht Hns. unfold Runtime.uploadFailureText, Runtime.uploadFailure.
    destruct v; try (now destruct Hnull); rewrite Hd, Ht;
      destruct d; try reflexivity; now destruct (Hns s).
  - intros body. split.
    + apply shown_truthy.
    + intros ->. reflexivity.
  - intros [[detail |] |]; try reflexivity.
    cbn. destruct detail as [| c s]; reflexivity.
Qed.

Lemma refused_upload_message_witness :
  Runtime.uploadFailureText "TypeError" (fun _ => "")
    (Runtime.BodyParsed (JObject [("detail", JString "Quota exceeded")]))
  = "Quota exceeded".
Proof.
  apply (proj1 (proj2 (proj2 (proj2 (proj2 (refused_upload_message None "TypeError"
           (fun _ => "") (File.mk "paper.pdf" "application/pdf" 2048) UploadOk
           SummariesNotOk initialHome)))))
           (JObject [("detail", JString "Quota exceeded")]) "Quota exceeded").
  - discriminate.
  - reflexivity.
  - discriminate.
Defined.

(** X7.  Dropping always clears the drag highlight, whatever becomes of
    the upload; a drop or a selection without a file sends nothing; and a
    dropped file is uploaded exactly as a selected one. *)
Theorem drop_clears_highlight env file up li (h : Home) :
  isDragging (fst (handleDrop env file up li h)) = false
  /\ dropPrompt (view (fst (handleDrop env file up li h)))
     = "Drag and drop your PDF file here"
  /\ snd (handleDrop env file up li h) = snd (handleFileSelect env file up li h)
  /\ fst (handleDrop env file up li h)
     = setIsDragging false (fst (handleFileSelect env file up li h))
  /\ (file = None ->
      handleDrop env file up li h = (setIsDragging false h, [])
      /\ handleFileSelect env file up li h = (h, [])).
Proof.
  assert (Hd : isDragging (fst (handleDrop env file up li h)) = false).
  { unfold handleDrop. destruct file as [f |]; [| reflexivity].
    cbn [handleFileSelect].
    now destruct (handleFileUpload_frame env f up li (setIsDragging false h)) as [-> _]. }
  split; [assumption | split; [| split; [| split]]].
  - unfold view; cbn [dropPrompt]. now rewrite Hd.
  - unfold handleDrop. destruct file as [f |]; [| reflexivity]. cbn [handleFileSelect].
    destruct (valid_dec f) as [Hv | Hr].
    + destruct up as [err | ed | err |].
      4: { now rewrite !(upload_ok _ _ _ _ Hv). }
      all: match goal with
           | |- context [handleFileUpload _ _ ?u _ _] =>
               destruct (upload_failed env f u li h Hv) as (m1 & -> & _);
                 [discriminate |];
               destruct (upload_failed env f u li (setIsDragging false h) Hv)
                 as (m2 & -> & _); [discriminate | reflexivity]
           end.
    + destruct (upload_refused env f up li h Hr) as (m1 & -> & _).
      destruct (upload_refused env f up li (setIsDragging false h) Hr) as (m2 & -> & _).
      reflexivity.
  - unfold handleDrop. destruct file as [f |]; [| reflexivity]. cbn [handleFileSelect].
    unfold handleFileUpload.
    destruct (isInvalidFileType f); [reflexivity |].
    destruct (isTooLarge f); [reflexivity |].
    destruct up as [err | [d |] | err |]; try reflexivity.
    destruct li; reflexivity.
  - intros ->. split; reflexivity.
Qed.

(** *** Requests *)

Lemma apiUrl_nonempty env : apiUrl env <> "".
Proof. unfold apiUrl. destruct env as [[| c s] |]; discriminate. Qed.

Lemma handle_effects env e h :
  (snd (handle env e h) = [] /\ listReply e = None)
  \/ (snd (handle env e h) = [GET (apiUrl env ++ "/summaries")]
      /\ is_Some (listReply e))
  \/ (exists f, valid f /\ snd (handle env e h) = [postOf env f h]
        /\ listReply e = None)
  \/ (exists f, valid f
        /\ snd (handle env e h)
           = [postOf env f h; GET (apiUrl env ++ "/summaries"); SetTimeout 3000]
        /\ is_Some (listReply e)).
Proof.
  assert (Hup : forall f up li h0, extractionMode h0 = extractionMode h ->
    let r := match up with
             | UploadOk => if isInvalidFileType f || isTooLarge f then None else Some li
             | _ => None
             end in
    (snd (handleFileUpload env f up li h0) = [] /\ r = None)
    \/ (valid f /\ snd (handleFileUpload env f up li h0) = [postOf env f h] /\ r = None)
    \/ (valid f
        /\ snd (handleFileUpload env f up li h0)
           = [postOf env f h; GET (apiUrl env ++ "/summaries"); SetTimeout 3000]
        /\ is_Some r)).
  { intros f up li h0 Hm r. subst r. unfold postOf. rewrite <- Hm.
    destruct (valid_dec f) as [Hv | Hr].
    - pose proof Hv as [E1 E2]. rewrite E1, E2. cbn [orb].
      destruct up as [err | ed | err |].
      4: { right; right. rewrite (upload_ok _ _ _ _ Hv). split; [assumption |].
           split; [reflexivity | eauto]. }
      all: right; left;
        match goal with
        | |- context [handleFileUpload _ _ ?u _ _] =>
            destruct (upload_failed env f u li h0 Hv) as (msg & -> & _);
              [discriminate | auto]
        end.
    - left. rewrite Hr. destruct (upload_refused env f up li h0 Hr) as (msg & -> & _).
      destruct up; auto. }
  destruct e as [reply | reply | file up li | file up li | | | value |];
    cbn [handle listReply];
    [ right; left; split; [reflexivity | eauto]
    | right; left; split; [reflexivity | eauto]
    | | | left; auto ..].
  - destruct file as [f |]; [| left; destruct up; auto]. cbn [handleFileSelect].
    destruct (Hup f up li h eq_refl) as [H | [H | H]];
      [left | right; right; left; exists f | right; right; right; exists f];
      destruct up; exact H.
  - destruct file as [f |]; [| left; destruct up; auto].
    cbn [handleDrop handleFileSelect].
    destruct (Hup f up li (setIsDragging false h) eq_refl) as [H | [H | H]];
      [left | right; right; left; exists f | right; right; right; exists f];
      destruct up; exact H.
Qed.

(** X8.  The page talks to two endpoints only.  Whatever the event, every
    effect is the GET of [apiUrl/summaries], the POST of a file that passed
    both validations to [apiUrl/summarize?mode=...] with the current
    extraction mode, or the 3000 ms timer; an event sends at most one POST;
    it sends the GET exactly when it reaches [fetchSummaries]; and [apiUrl]
    is never empty (an unset or empty variable gives the localhost
    default). *)
Theorem page_requests env (p : Page) e (p' : Page) effects :
  step env p e = Some (p', effects) ->
  (forall fx, fx ∈ effects ->
     fx = GET (apiUrl env ++ "/summaries") \/ fx = SetTimeout 3000
     \/ exists f, fx = postOf env f (home p) /\ valid f)
  /\ (GET (apiUrl env ++ "/summaries") ∈ effects <-> is_Some (listReply e))
  /\ List.length (List.filter is_POST effects) <= 1
  /\ apiUrl env <> ""
  /\ apiUrl None = "http://localhost:8000"
  /\ apiUrl (Some "") = "http://localhost:8000".
Proof.
  intros Hstep. apply step_handle in Hstep as (_ & -> & _).
  split; [| split; [| split; [| split; [apply apiUrl_nonempty | split; reflexivity]]]].
  - intros fx.
    destruct (handle_effects env e (home p))
      as [[-> _] | [[-> _] | [(f & Hv & -> & _) | (f & Hv & -> & _)]]];
      intros Hin; apply list_elem_of_In in Hin; cbn in Hin;
      repeat (destruct Hin as [<- | Hin]); try contradiction; eauto.
  - destruct (handle_effects env e (home p))
      as [[-> Hr] | [[-> Hr] | [(f & Hv & -> & Hr) | (f & Hv & -> & Hr)]]];
      rewrite ?Hr; split; intros H; try assumption.
    + apply list_elem_of_In in H. destruct H.
    + destruct H as [x Hx]. discriminate.
    + apply list_elem_of_In. cbn. auto.
    + apply list_elem_of_In in H. cbn in H. unfold postOf in H.
      destruct H as [H | []]. discriminate.
    + destruct H as [x Hx]. discriminate.
    + apply list_elem_of_In. cbn. auto.
  - destruct (handle_effects env e (home p))
      as [[-> _] | [[-> _] | [(f & Hv & -> & _) | (f & Hv & -> & _)]]];
      cbn; lia.
Qed.

Lemma page_requests_witness :
  GET (apiUrl None ++ "/summaries")
    ∈ snd (handle None (Mount SummariesNotOk) (home initialPage))
  <-> is_Some (listReply (Mount SummariesNotOk)).
Proof.
  apply (page_requests None initialPage (Mount SummariesNotOk)
           (render (fst (handle None (Mount SummariesNotOk) (home initialPage))))
           (snd (handle None (Mount SummariesNotOk) (home initialPage)))).
  reflexivity.
Defined.

(** *** Strings *)

Lemma append_cons c (a b : string) : String c a ++ b = String c (a ++ b).
Proof. reflexivity. Qed.

Lemma length_append (a b : string) :
  String.length (a ++ b) = String.length a + String.length b.
Proof.
  induction a as [| c a IH]; [reflexivity |].
  rewrite append_cons. cbn. now f_equal.
Qed.

Lemma length_toLowerCase (s : string) :
  String.length (toLowerCase s) = String.length s.
Proof. induction s as [| c s IH]; cbn; [reflexivity | now f_equal]. Qed.

Lemma toLowerCase_append (a b : string) :
  toLowerCase (a ++ b) = toLowerCase a ++ toLowerCase b.
Proof.
  induction a as [| c a IH]; [reflexivity |].
  rewrite append_cons. cbn [toLowerCase]. rewrite append_cons. now f_equal.
Qed.

Lemma append_inj_length (a b c d : string) :
  a ++ b = c ++ d -> String.length a = String.length c -> a = c /\ b = d.
Proof.
  revert c. induction a as [| x a IH]; intros [| y c];
    rewrite ?append_cons; cbn [String.length]; try discriminate.
  - auto.
  - intros [= -> H] [= Hl]. destruct (IH c H Hl) as [-> ->]. auto.
Qed.

Lemma substring_all (s : string) : substring 0 (String.length s) s = s.
Proof. induction s as [| c s IH]; cbn; [reflexivity | now f_equal]. Qed.

Lemma split_at (k : nat) (s : string) :
  k <= String.length s ->
  exists a, String.length a = k
            /\ s = a ++ substring k (String.length s - k) s.
Proof.
  revert s. induction k as [| k IH]; intros s Hle.
  - exists "". rewrite Nat.sub_0_r, substring_all. auto.
  - destruct s as [| c s]; cbn in Hle; [lia |].
    destruct (IH s) as (a & Hl & Hs); [lia |].
    exists (String c a). rewrite append_cons. cbn. split; [now rewrite Hl |].
    now rewrite <- Hs.
Qed.

Lemma substring_append_r (a b : string) :
  substring (String.length a) (String.length b) (a ++ b) = b.
Proof.
  induction a as [| c a IH]; [apply substring_all |].
  rewrite append_cons. exact IH.
Qed.

(** [endsWith] is the suffix relation. *)
Lemma endsWith_true (s suffix : string) :
  endsWith s suffix = true <-> exists stem, s = stem ++ suffix.
Proof.
  unfold endsWith. split.
  - destruct (Nat.leb_spec (String.length suffix) (String.length s)) as [Hle | Hlt];
      [| discriminate].
    intros E. apply String.eqb_eq in E.
    destruct (split_at (String.length s - String.length suffix) s) as (a & Hl & Hs);
      [lia |].
    exists a. rewrite Hs at 1. f_equal. rewrite <- E at 3. f_equal. lia.
  - intros [stem ->]. rewrite length_append.
    destruct (Nat.leb_spec (String.length suffix)
                (String.length stem + String.length suffix)) as [_ | Hlt]; [| lia].
    replace (String.length stem + String.length suffix - String.length suffix)
      with (String.length stem) by lia.
    rewrite substring_append_r. apply String.eqb_refl.
Qed.

(** X9.  The name test of the file-type validation is a test of the
    extension up to case: a file passes the type validation exactly when
    its type is [application/pdf] or its name is some stem followed by an
    extension that lower-cases to [.pdf] ([.pdf], [.PDF], [.Pdf], ...);
    a name shorter than four characters never passes by its name. *)
Theorem pdf_extension_in_any_case (f : File.t) :
  (isInvalidFileType f = false <->
   File.type f = "application/pdf"
   \/ exists stem ext, File.name f = stem ++ ext /\ toLowerCase ext = ".pdf")
  /\ (String.length (File.name f) < 4 -> File.type f <> "application/pdf" ->
      isInvalidFileType f = true).
Proof.
  assert (Hname : endsWith (toLowerCase (File.name f)) ".pdf" = true <->
                  exists stem ext, File.name f = stem ++ ext /\ toLowerCase ext = ".pdf").
  { rewrite endsWith_true. split.
    - intros [low Hlow].
      assert (Hlen : String.length (File.name f) = String.length low + 4).
      { rewrite <- length_toLowerCase, Hlow, length_append. reflexivity. }
      destruct (split_at (String.length low) (File.name f)) as (a & Hl & Hs); [lia |].
      exists a. eexists. split; [exact Hs |].
      rewrite Hs, toLowerCase_append in Hlow.
      apply append_inj_length in Hlow; [apply Hlow |].
      now rewrite length_toLowerCase.
    - intros (stem & ext & -> & Hext). exists (toLowerCase stem).
      now rewrite toLowerCase_append, Hext. }
  split.
  - rewrite FrontendSpec.isInvalidFileType_false, Hname. reflexivity.
  - intros Hshort Htype. apply FrontendSpec.isInvalidFileType_true.
    split; [assumption |].
    destruct (endsWith (toLowerCase (File.name f)) ".pdf") eqn:E; [| reflexivity].
    destruct (proj1 Hname eq_refl) as (stem & ext & Hn & Hext).
    assert (String.length ext = 4)
      by (rewrite <- length_toLowerCase, Hext; reflexivity).
    rewrite Hn, length_append in Hshort. lia.
Qed.

Lemma pdf_extension_in_any_case_witness :
  isInvalidFileType (File.mk "pdf" "text/plain" 10) = true.
Proof.
  apply (proj2 (pdf_extension_in_any_case (File.mk "pdf" "text/plain" 10))).
  - cbn. lia.
  - discriminate.
Defined.

(** *** The mode parameter *)

Lemma unreserved_not_percent (c : ascii) :
  uri_unreserved c = true -> Ascii.eqb c "%" = false.
Proof.
  destruct c as [[] [] [] [] [] [] [] []]; vm_compute; intros H;
    first [reflexivity | discriminate H].
Qed.

Lemma hex_digits_unreserved (c : ascii) :
  uri_unreserved (hex_digit (N_of_ascii c / 16)) = true
  /\ uri_unreserved (hex_digit (N_of_ascii c mod 16)) = true.
Proof. destruct c as [[] [] [] [] [] [] [] []]; vm_compute; auto. Qed.

Lemma unhex_hex_digits (c : ascii) :
  ascii_of_N (16 * unhex (hex_digit (N_of_ascii c / 16))
              + unhex (hex_digit (N_of_ascii c mod 16))) = c.
Proof. destruct c as [[] [] [] [] [] [] [] []]; vm_compute; reflexivity. Qed.

Lemma unescape_encodeURIComponent (s : string) :
  unescape (encodeURIComponent s) = s.
Proof.
  induction s as [| c s IH]; [reflexivity |].
  cbn [encodeURIComponent]. destruct (uri_unreserved c) eqn:E.
  - cbn [unescape]. rewrite (unreserved_not_percent c E). now f_equal.
  - cbn [unescape]. change (Ascii.eqb "%" "%") with true. cbn iota.
    rewrite unhex_hex_digits. now f_equal.
Qed.

Lemma encodeURIComponent_chars (s : string) (c : ascii) :
  In c (list_ascii_of_string (encodeURIComponent s)) ->
  uri_unreserved c = true \/ c = "%"%char.
Proof.
  induction s as [| x s IH]; cbn [encodeURIComponent]; [intros [] |].
  destruct (uri_unreserved x) eqn:E; cbn [list_ascii_of_string In].
  - intros [<- | H]; auto.
  - destruct (hex_digits_unreserved x) as [H1 H2].
    intros [<- | [<- | [<- | H]]]; auto.
Qed.

Lemma encodeURIComponent_unreserved (s : string) :
  forallb uri_unreserved (list_ascii_of_string s) = true ->
  encodeURIComponent s = s.
Proof.
  induction s as [| c s IH]; [reflexivity |].
  cbn [list_ascii_of_string forallb encodeURIComponent].
  intros H. apply andb_true_iff in H as [-> H]. f_equal. auto.
Qed.

(** X10.  The [mode] parameter of the upload URL cannot break the query:
    the encoded extraction mode consists of unreserved characters and [%]
    only, so it contains none of [& = ? # / +] nor a space; a mode made of
    unreserved characters (as [plain_text] and [markdown] are) is sent as
    it is; and the encoding loses nothing: unescaping gives the mode back,
    so different modes give different URLs. *)
Theorem mode_parameter_is_url_safe env (f : File.t) (h : Home) :
  postOf env f h
  = POST (apiUrl env ++ "/summarize?mode=" ++ encodeURIComponent (extractionMode h)) f
  /\ (forall c, In c (list_ascii_of_string (encodeURIComponent (extractionMode h))) ->
        (uri_unreserved c = true \/ c = "%"%char)
        /\ ~ In c ["&"; "="; "?"; "#"; "/"; "+"; " "]%char)
  /\ (forallb uri_unreserved (list_ascii_of_string (extractionMode h)) = true ->
      encodeURIComponent (extractionMode h) = extractionMode h)
  /\ unescape (encodeURIComponent (extractionMode h)) = extractionMode h
  /\ (forall h2 : Home,
        encodeURIComponent (extractionMode h) = encodeURIComponent (extractionMode h2) ->
        extractionMode h = extractionMode h2).
Proof.
  split; [reflexivity | split; [| split; [| split]]].
  - intros c Hc. apply encodeURIComponent_chars in Hc. split; [assumption |].
    intros Hin. cbn in Hin.
    destruct Hc as [Hu | ->].
    + repeat (destruct Hin as [<- | Hin]); try (vm_compute in Hu; discriminate Hu).
      exact Hin.
    + repeat (destruct Hin as [Hin | Hin]); try discriminate Hin. exact Hin.
  - apply encodeURIComponent_unreserved.
  - apply unescape_encodeURIComponent.
  - intros h2 E. apply (f_equal unescape) in E.
    now rewrite !unescape_encodeURIComponent in E.
Qed.

Lemma mode_parameter_is_url_safe_witness :
  encodeURIComponent (extractionMode (setExtractionMode "markdown" initialHome))
  = extractionMode (setExtractionMode "markdown" initialHome).
Proof.
  apply (proj1 (proj2 (proj2 (mode_parameter_is_url_safe None
           (File.mk "paper.pdf" "application/pdf" 2048)
           (setExtractionMode "markdown" initialHome))))).
  reflexivity.
Defined.

(** *** Status styles *)

(** X11.  The style tells the status: [getStatusColor] returns the blue
    style exactly for UPLOADED, the yellow one exactly for TEXT_READY, the
    green one exactly for SUMMARY_READY and the red one exactly for ERROR
    (each up to case), and gray exactly for everything else; and a summary
    keeps the polling going exactly when its badge is blue or yellow. *)
Theorem status_style_identifies_status (s : Summary.t) :
  (getStatusColor (Summary.status s) = "bg-blue-100 text-blue-800"
   <-> toLowerCase (Summary.status s) = "uploaded")
  /\ (getStatusColor (Summary.status s) = "bg-yellow-100 text-yellow-800"
      <-> toLowerCase (Summary.status s) = "text_ready")
  /\ (getStatusColor (Summary.status s) = "bg-green-100 text-green-800"
      <-> toLowerCase (Summary.status s) = "summary_ready")
  /\ (getStatusColor (Summary.status s) = "bg-red-100 text-red-800"
      <-> toLowerCase (Summary.status s) = "error")
  /\ (getStatusColor (Summary.status s) = "bg-gray-100 text-gray-800"
      <-> ~ In (toLowerCase (Summary.status s))
               ["uploaded"; "text_ready"; "summary_ready"; "error"])
  /\ (inProgress s = true
      <-> getStatusColor (Summary.status s) = "bg-blue-100 text-blue-800"
          \/ getStatusColor (Summary.status s) = "bg-yellow-100 text-yellow-800").
Proof.
  unfold getStatusColor, inProgress.
  destruct (String.eqb_spec (toLowerCase (Summary.status s)) "uploaded") as [E | N1];
    [rewrite E; cbn; intuition (discriminate || congruence) |].
  destruct (String.eqb_spec (toLowerCase (Summary.status s)) "text_ready") as [E | N2];
    [rewrite E; cbn; intuition (discriminate || congruence) |].
  destruct (String.eqb_spec (toLowerCase (Summary.status s)) "summary_ready") as [E | N3];
    [rewrite E; cbn; intuition (discriminate || congruence) |].
  destruct (String.eqb_spec (toLowerCase (Summary.status s)) "error") as [E | N4];
    [rewrite E; cbn; intuition (discriminate || congruence) |].
  cbn; intuition (discriminate || congruence).
Qed.

(** *** What is rendered *)

Lemma or_else_nonempty x d : d <> "" -> or_else x d <> "".
Proof. intros H. destruct x as [[| c s] |]; cbn; [assumption | discriminate | assumption]. Qed.

Lemma shown_Some (msg : string) : msg <> "" -> shown (Some msg) = Some msg.
Proof.
  intros H. unfold shown, truthyOpt, truthy.
  destruct (String.eqb_spec msg ""); [contradiction | reflexivity].
Qed.

Lemma view_idle (h : Home) :
  loading h = false -> truthyOpt (error h) = false ->
  errorPanel (view h) = None
  /\ emptyState (view h) = Nat.eqb (List.length (summaries h)) 0
  /\ cards (view h)
     = (if Nat.ltb 0 (List.length (summaries h))
        then Some (map renderCard (summaries h)) else None)
  /\ footer (view h)
     = (if Nat.ltb 0 (List.length (summaries h))
        then Some (List.length (summaries h),
                   if Nat.eqb (List.length (summaries h)) 1
                   then "summary" else "summaries")
        else None).
Proof.
  intros Hl He. unfold view; cbn [errorPanel emptyState cards footer].
  unfold shown. rewrite Hl, He. cbn. auto.
Qed.

Lemma view_busy (h : Home) :
  loading h = true \/ truthyOpt (error h) = true ->
  emptyState (view h) = false /\ cards (view h) = None /\ footer (view h) = None.
Proof.
  intros H. unfold view; cbn [emptyState cards footer].
  destruct H as [-> | ->]; rewrite ?andb_false_r; cbn; auto.
Qed.

(** X12.  What the user sees after the list was fetched (not silently).
    The spinner is gone whatever the reply.  After a successful reply, and
    with no earlier error, the page shows the empty state when the list is
    empty and otherwise one card per entry, in the order of the response,
    with a footer that counts them ("summary" for exactly one).  After a
    failed fetch the error cell holds the message, which is 'Failed to
    fetch summaries' for a response that is not ok, and a non-empty message
    hides both the cards and the empty state. *)
Theorem view_after_fetch env reply (h : Home) :
  spinner (view (fst (fetchSummaries env false reply h))) = false
  /\ (forall data, reply = SummariesOk data -> truthyOpt (error h) = false ->
        errorPanel (view (fst (fetchSummaries env false reply h))) = None
        /\ (default [] (SummariesResponse.summaries data) = [] ->
            emptyState (view (fst (fetchSummaries env false reply h))) = true
            /\ cards (view (fst (fetchSummaries env false reply h))) = None
            /\ footer (view (fst (fetchSummaries env false reply h))) = None)
        /\ (default [] (SummariesResponse.summaries data) <> [] ->
            emptyState (view (fst (fetchSummaries env false reply h))) = false
            /\ cards (view (fst (fetchSummaries env false reply h)))
               = Some (map renderCard (default [] (SummariesResponse.summaries data)))
            /\ footer (view (fst (fetchSummaries env false reply h)))
               = Some (List.length (default [] (SummariesResponse.summaries data)),
                       if Nat.eqb (List.length
                                     (default [] (SummariesResponse.summaries data))) 1
                       then "summary" else "summaries")))
  /\ ((forall data, reply <> SummariesOk data) ->
      exists msg,
        error (fst (fetchSummaries env false reply h)) = Some msg
        /\ (reply = SummariesNotOk -> msg = "Failed to fetch summaries")
        /\ (msg <> "" ->
            errorPanel (view (fst (fetchSummaries env false reply h))) = Some msg
            /\ cards (view (fst (fetchSummaries env false reply h))) = None
            /\ emptyState (view (fst (fetchSummaries env false reply h))) = false)).
Proof.
  split; [| split].
  - unfold view; cbn [spinner]. now rewrite fetchSummaries_loading.
  - intros data -> Herr.
    destruct (fetchSummaries_ok env false data h) as [Hs He].
    destruct (view_idle (fst (fetchSummaries env false (SummariesOk data) h)))
      as (Hp & Hempty & Hcards & Hfoot).
    { now rewrite fetchSummaries_loading. }
    { now rewrite He. }
    rewrite Hp, Hempty, Hcards, Hfoot, Hs.
    split; [reflexivity |].
    destruct (default [] (SummariesResponse.summaries data)) as [| s l];
      split; intros H; try contradiction; try discriminate H; cbn; auto.
  - intros Hfail.
    assert (Hmsg : exists msg,
               error (fst (fetchSummaries env false reply h)) = Some msg
               /\ (reply = SummariesNotOk -> msg = "Failed to fetch summaries")).
    { destruct reply as [err | | err | data]; [| | | now destruct (Hfail data)];
        eexists; (split; [reflexivity |]); intros H; try discriminate H; reflexivity. }
    destruct Hmsg as (msg & He & Hnot). exists msg.
    split; [assumption | split; [assumption |]].
    intros Hne.
    assert (Ht : truthyOpt (error (fst (fetchSummaries env false reply h))) = true).
    { rewrite He. cbn. unfold truthy. now destruct (String.eqb_spec msg ""). }
    destruct (view_busy _ (or_intror Ht)) as (H1 & H2 & _).
    split; [| auto].
    unfold view; cbn [errorPanel]. rewrite He. now apply shown_Some.
Qed.

Lemma view_after_fetch_witness :
  emptyState (view (fst (fetchSummaries None false
     (SummariesOk (SummariesResponse.mk
        (Some [Summary.mk "f1" "paper.pdf" "UPLOADED" "" "" "2025-01-01"]) 1))
     initialHome))) = false
  /\ cards (view (fst (fetchSummaries None false
       (SummariesOk (SummariesResponse.mk
          (Some [Summary.mk "f1" "paper.pdf" "UPLOADED" "" "" "2025-01-01"]) 1))
       initialHome)))
     = Some (map renderCard [Summary.mk "f1" "paper.pdf" "UPLOADED" "" "" "2025-01-01"])
  /\ footer (view (fst (fetchSummaries None false
       (SummariesOk (SummariesResponse.mk
          (Some [Summary.mk "f1" "paper.pdf" "UPLOADED" "" "" "2025-01-01"]) 1))
       initialHome)))
     = Some (1, "summary").
Proof.
  apply (proj2 (proj2 (proj1 (proj2 (view_after_fetch None
           (SummariesOk (SummariesResponse.mk
              (Some [Summary.mk "f1" "paper.pdf" "UPLOADED" "" "" "2025-01-01"]) 1))
           initialHome))
           (SummariesResponse.mk
              (Some [Summary.mk "f1" "paper.pdf" "UPLOADED" "" "" "2025-01-01"]) 1)
           eq_refl eq_refl))).
  discriminate.
Defined.

(** X13.  The cards mirror the list.  Whenever cards are rendered there is
    one per summary, keyed by [file_id] in the order of the list, the list
    is not empty, neither the spinner, the error panel nor the empty state
    is rendered with them, and the footer counts the cards.  Every card has
    a non-empty title (the file name, or 'Untitled PDF' for an empty one),
    and shows the summary section exactly when the summary is non-empty. *)
Theorem cards_mirror_summaries (h : Home) (cs : list Card) :
  cards (view h) = Some cs ->
  map key cs = map Summary.file_id (summaries h)
  /\ List.length cs = List.length (summaries h)
  /\ cs <> []
  /\ spinner (view h) = false /\ errorPanel (view h) = None
  /\ emptyState (view h) = false
  /\ footer (view h)
     = Some (List.length cs,
             if Nat.eqb (List.length cs) 1 then "summary" else "summaries")
  /\ (forall c, In c cs -> title c <> "")
  /\ (forall s, In s (summaries h) ->
        (summarySection (renderCard s) = None <-> Summary.summary s = "")
        /\ (Summary.filename s = "" -> title (renderCard s) = "Untitled PDF")
        /\ (Summary.filename s <> "" -> title (renderCard s) = Summary.filename s)).
Proof.
  intros Hc.
  destruct (loading h) eqn:Hl.
  { destruct (view_busy h (or_introl Hl)) as (_ & H & _). congruence. }
  destruct (truthyOpt (error h)) eqn:He.
  { destruct (view_busy h (or_intror He)) as (_ & H & _). congruence. }
  destruct (view_idle h Hl He) as (Hp & Hempty & Hcards & Hfoot).
  rewrite Hcards in Hc.
  destruct (Nat.ltb_spec 0 (List.length (summaries h))) as [Hpos | Hzero];
    [| discriminate Hc].
  injection Hc as <-.
  assert (Hlen : List.length (map renderCard (summaries h)) = List.length (summaries h))
    by apply List.length_map.
  split; [| split; [| split; [| split; [| split; [| split; [| split; [| split]]]]]]].
  - rewrite List.map_map. reflexivity.
  - exact Hlen.
  - intros E. rewrite E in Hlen. cbn in Hlen. lia.
  - unfold view; cbn [spinner]. exact Hl.
  - exact Hp.
  - rewrite Hempty. apply Nat.eqb_neq. lia.
  - rewrite Hfoot, Hlen. destruct (Nat.ltb_spec 0 (List.length (summaries h))); [| lia].
    reflexivity.
  - intros c Hin. apply List.in_map_iff in Hin as (s & <- & _).
    cbn [title renderCard]. apply or_else_nonempty. discriminate.
  - intros s _. cbn [summarySection title renderCard]. split; [| split].
    + unfold shown, truthyOpt, truthy.
      destruct (String.eqb_spec (Summary.summary s) ""); cbn;
        split; intros H; congruence.
    + intros ->. reflexivity.
    + intros Hne. destruct (Summary.filename s); [contradiction | reflexivity].
Qed.

Lemma cards_mirror_summaries_witness :
  map key (map renderCard [Summary.mk "f1" "" "ERROR" "" "" "2025-01-01"])
  = map Summary.file_id
      (summaries (setLoading false
         (setSummaries [Summary.mk "f1" "" "ERROR" "" "" "2025-01-01"] initialHome))).
Proof.
  apply (cards_mirror_summaries
           (setLoading false
              (setSummaries [Summary.mk "f1" "" "ERROR" "" "" "2025-01-01"] initialHome))
           (map renderCard [Summary.mk "f1" "" "ERROR" "" "" "2025-01-01"])).
  reflexivity.
Defined.

(** *** What an event leaves alone *)

Lemma handleFileUpload_mode_drag env f up li h :
  isDragging (fst (handleFileUpload env f up li h)) = isDragging h
  /\ extractionMode (fst (handleFileUpload env f up li h)) = extractionMode h.
Proof. destruct (handleFileUpload_frame env f up li h) as (H1 & H2 & _). auto. Qed.

(** X14.  The footprint of an event.  The extraction mode changes only
    when a radio button is chosen, and then to that button's value; the
    drag highlight is set by a drag-over, cleared by a drag-leave or a drop
    and untouched by everything else, uploads and fetches included; and the
    three upload cells change only when a file is handed over or the
    success timer fires, never through a mount fetch, a poll, a drag or a
    change of mode. *)
Theorem event_footprint env (p : Page) e (p' : Page) effects :
  step env p e = Some (p', effects) ->
  extractionMode (home p')
  = match e with
    | OnModeChange value => value
    | _ => extractionMode (home p)
    end
  /\ isDragging (home p')
     = match e with
       | OnDragOver => true
       | OnDragLeave | OnDrop _ _ _ => false
       | _ => isDragging (home p)
       end
  /\ match e with
     | OnFileSelect (Some _) _ _ | OnDrop (Some _) _ _ => True
     | SuccessTimeout =>
         uploading (home p') = uploading (home p)
         /\ uploadError (home p') = uploadError (home p)
         /\ uploadSuccess (home p') = false
     | _ =>
         uploading (home p') = uploading (home p)
         /\ uploadError (home p') = uploadError (home p)
         /\ uploadSuccess (home p') = uploadSuccess (home p)
     end.
Proof.
  intros Hstep. apply step_handle in Hstep as (-> & _ & _). cbn [home render].
  destruct e as [reply | reply | file up li | file up li | | | value |];
    cbn [handle].
  - pose proof (fetchSummaries_frame env false reply (home p)) as (H1 & H2 & H3 & H4 & H5).
    cbn zeta in *. auto.
  - pose proof (fetchSummaries_frame env true reply (home p)) as (H1 & H2 & H3 & H4 & H5).
    cbn zeta in *. auto.
  - destruct file as [f |]; cbn [handleFileSelect fst]; [| auto].
    destruct (handleFileUpload_mode_drag env f up li (home p)) as [-> ->]. auto.
  - destruct file as [f |]; cbn [handleDrop handleFileSelect fst]; [| cbn; auto].
    destruct (handleFileUpload_mode_drag env f up li (setIsDragging false (home p)))
      as [-> ->]. auto.
  - cbn. auto.
  - cbn. auto.
  - cbn. auto.
  - cbn. auto.
Qed.

Lemma event_footprint_witness :
  extractionMode (home (render (fst (handle None (OnModeChange "markdown") initialHome))))
  = "markdown".
Proof.
  apply (event_footprint None initialPage (OnModeChange "markdown")
           (render (fst (handle None (OnModeChange "markdown") initialHome)))
           (snd (handle None (OnModeChange "markdown") initialHome))).
  reflexivity.
Defined.

End FrontendMore.
